(** * nucypher: the Moe blockchain crawler

    A shallow embedding of [nucypher/network/status/utility/moe_crawler.py]:
    the [MoeBlockchainCrawler] (schema bootstrap, the node-sampling and
    contract-sampling cycles, the error policy, start/stop) and the
    [MoeCrawlerDBClient] (the two historical queries).

    The crawler is stateful Python that talks to three outside parties:
    the blockchain (staking agent, economics, known nodes), the InfluxDB
    store, and twisted's [LoopingCall].  Every method is embedded as a
    function in a state-and-exception monad over one [State] record; a
    raised Python exception is the [Raise] result, and the state returned
    with it holds the effects that happened before the raise. *)

From Stdlib Require Import ZArith String Ascii List Bool Lia DecimalString.
From Stdlib Require Import DecimalPos DecimalZ.
From stdpp Require Import gmap strings list.

Local Open Scope Z_scope.

(** ** Exceptions and results *)

(** The Python exceptions the model tells apart.  A collaborator may raise
    any of them; [CollaboratorError] stands for its own exception types. *)
Inductive Exc : Type :=
| CollaboratorError (what : string)
| AssertionError (msg : string)
| ValueError (msg : string)
| AttributeError (msg : string)
| OverflowError (msg : string)
| OSError (msg : string)
| RecursionError (msg : string).

Inductive result (A : Type) : Type :=
| Ok (a : A)
| Raise (e : Exc).
Arguments Ok {A} a.
Arguments Raise {A} e.

(** ** Class constants of [MoeBlockchainCrawler] *)

Definition DEFAULT_REFRESH_RATE : Z := 60.
Definition DB_MEASUREMENT : string := "moe_network_info".
Definition DB_NAME : string := "network".
Definition DB_RETENTION_POLICY_NAME : string := "network_info_retention".
Definition DB_RETENTION_POLICY_PERIOD : string := "5w".
Definition DB_RETENTION_POLICY_REPLICATION : string := "1".

(** The double-quote character of the line protocol, built from its code. *)
Definition dquote : string := String (ascii_of_nat 34) EmptyString.

(** ** The InfluxDB store

    The store as far as the crawler's calls can tell: databases by name,
    each with its retention policies and the lines written to it.
    [health] is the environment's part: an unreachable store raises on
    every request; a rejecting store refuses every write request, which
    the client raises as its [InfluxDBClientError]. *)

Record RetentionPolicy : Type := {
  rp_name : string;
  rp_duration : string;
  rp_replication : string;
  rp_default : bool
}.

Record Database : Type := {
  db_name : string;
  db_policies : list RetentionPolicy;
  db_points : list string
}.

Inductive Health : Type :=
| Healthy
| Rejecting
| Unreachable (e : Exc).

Record InfluxDB : Type := {
  health : Health;
  databases : list Database
}.

Definition has_database (name : string) (s : InfluxDB) : bool :=
  existsb (fun d => String.eqb (db_name d) name) (databases s).

(** [get_list_database()]: the names of the databases, in order. *)
Definition influx_get_list_database (s : InfluxDB) : result (list string) :=
  match health s with
  | Unreachable e => Raise e
  | _ => Ok (map db_name (databases s))
  end.

(** [CREATE DATABASE] does nothing when the database exists. *)
Definition influx_create_database (name : string) (s : InfluxDB)
  : result unit * InfluxDB :=
  match health s with
  | Unreachable e => (Raise e, s)
  | _ =>
      if has_database name s then (Ok tt, s)
      else (Ok tt, {| health := health s;
                      databases := databases s ++
                        [{| db_name := name; db_policies := []; db_points := [] |}] |})
  end.

Definition clear_default (p : RetentionPolicy) : RetentionPolicy :=
  {| rp_name := rp_name p; rp_duration := rp_duration p;
     rp_replication := rp_replication p; rp_default := false |}.

Definition add_policy (p : RetentionPolicy) (d : Database) : Database :=
  {| db_name := db_name d;
     db_policies :=
       (if rp_default p then map clear_default (db_policies d)
        else db_policies d) ++ [p];
     db_points := db_points d |}.

Definition has_policy (name : string) (d : Database) : bool :=
  existsb (fun p => String.eqb (rp_name p) name) (db_policies d).

(** [CREATE RETENTION POLICY name ON database ...]: an error when the
    database is missing or already has a policy of that name. *)
Definition influx_create_retention_policy
    (name duration replication database : string) (default : bool)
    (s : InfluxDB) : result unit * InfluxDB :=
  match health s with
  | Unreachable e => (Raise e, s)
  | _ =>
      if negb (has_database database s) then
        (Raise (CollaboratorError "database not found"), s)
      else if existsb (fun d => String.eqb (db_name d) database && has_policy name d)
                      (databases s) then
        (Raise (CollaboratorError "retention policy already exists"), s)
      else
        (Ok tt,
         {| health := health s;
            databases :=
              map (fun d =>
                     if String.eqb (db_name d) database then
                       add_policy {| rp_name := name; rp_duration := duration;
                                     rp_replication := replication;
                                     rp_default := default |} d
                     else d)
                  (databases s) |})
  end.

Definition add_points (data : list string) (d : Database) : Database :=
  {| db_name := db_name d; db_policies := db_policies d;
     db_points := db_points d ++ data |}.

(** One write request carrying the lines [data]: the store appends them;
    the client raises when the store cannot be reached or answers the
    request with an error.  It has no falsy answer. *)
Definition influx_write (data : list string) (database : string)
    (s : InfluxDB) : result unit * InfluxDB :=
  match health s with
  | Unreachable e => (Raise e, s)
  | Rejecting => (Raise (CollaboratorError "InfluxDBClientError"), s)
  | Healthy =>
      if has_database database s then
        (Ok tt,
         {| health := health s;
            databases :=
              map (fun d => if String.eqb (db_name d) database
                            then add_points data d else d)
                  (databases s) |})
      else (Raise (CollaboratorError "database not found"), s)
  end.

(** [InfluxDBClient._batches(points, size)]: the points in slices of
    [size]; no slice for no points. *)
Fixpoint batches_from (fuel : nat) (points : list string) (size : nat)
  : list (list string) :=
  match fuel with
  | O => []
  | S fuel' =>
      match points with
      | [] => []
      | _ => take size points :: batches_from fuel' (drop size points) size
      end
  end.

Definition _batches (points : list string) (size : nat) : list (list string) :=
  batches_from (length points) points size.

(** One request per batch, in order; the first one that raises ends the loop. *)
Fixpoint write_batches (bs : list (list string)) (database : string)
    (s : InfluxDB) : result bool * InfluxDB :=
  match bs with
  | [] => (Ok true, s)
  | batch :: rest =>
      match influx_write batch database s with
      | (Ok _, s') => write_batches rest database s'
      | (Raise e, s') => (Raise e, s')
      end
  end.

(** [write_points(points, database=..., batch_size=...)]: with a positive
    batch size one request per batch and then [True]; otherwise one
    request for all points.  The answer is [True] or a raise. *)
Definition influx_write_points (data : list string) (database : string)
    (batch_size : Z) (s : InfluxDB) : result bool * InfluxDB :=
  if 0 <? batch_size then
    write_batches (_batches data (Z.to_nat batch_size)) database s
  else
    match influx_write data database s with
    | (Ok _, s') => (Ok true, s')
    | (Raise e, s') => (Raise e, s')
    end.

(** A store that answers requests. *)
Definition reachable (s : InfluxDB) : Prop := forall e, health s <> Unreachable e.

(** The retention policy the crawler asks for, and a store after the
    database and that policy were created on it. *)
Definition the_policy : RetentionPolicy :=
  {| rp_name := DB_RETENTION_POLICY_NAME;
     rp_duration := DB_RETENTION_POLICY_PERIOD;
     rp_replication := DB_RETENTION_POLICY_REPLICATION;
     rp_default := true |}.

Definition bootstrapped (s : InfluxDB) : InfluxDB :=
  {| health := health s;
     databases :=
       databases s ++
       [{| db_name := DB_NAME; db_policies := [the_policy]; db_points := [] |}] |}.

(** ** The trace of outward calls

    Each call the crawler makes on a collaborating object that a claim
    counts (log lines, store requests, task starts and stops, and entries
    into [start]) is appended to [events], oldest first. *)

Inductive Level : Type := INFO | WARN | CRITICAL.

Inductive TaskId : Type := NodeTask | ContractTask.

(** A log line, as the values formatted into it. *)
Inductive LogMsg : Type :=
| MsgDatabaseNotFound (db : string)
| MsgDatabaseExists (db : string)
| MsgProcessingNodes (n : nat) (block_time period : Z)
| MsgUnableToWrite (db : string) (block_time period : Z)
| MsgRestarting (failure : Exc)
| MsgUnhandled (failure : Exc)
| MsgStarting
| MsgStopping.

Inductive Event : Type :=
| Log (lvl : Level) (msg : LogMsg)
| ClientOpened (host : string) (port : Z) (database : string)
| ClientClosed
| Call_get_list_database
| Call_create_database (name : string)
| Call_create_retention_policy
    (name duration replication database : string) (default : bool)
| Call_write_points
    (data : list string) (database time_precision : string)
    (batch_size : Z) (protocol : string)
| Call_query (q : string)
| Call_task_start (t : TaskId) (interval : Z) (now : bool)
| Call_task_stop (t : TaskId)
| Call_start.

(** ** twisted's LoopingCall, as the crawler uses it

    [running] is the attribute the crawler reads.  [errback] says whether
    the deferred returned by the latest [start] has [_handle_errors]
    attached: a fresh deferred has not. *)

Record LoopingCall : Type := {
  running : bool;
  interval : option Z;
  run_at_start : bool;
  errback : bool
}.

Definition new_LoopingCall : LoopingCall :=
  {| running := false; interval := None; run_at_start := false; errback := false |}.

Record InfluxDBClient : Type := {
  host : string;
  port : Z;
  database : string
}.

(** A row of a query result ([get_points()]): the bucket's time and the
    aggregate, which JSON gives as null, an integer or a float. *)
Inductive PyValue (F : Type) : Type :=
| PyNone
| PyInt (z : Z)
| PyFloat (f : F).
Arguments PyNone {F}.
Arguments PyInt {F} z.
Arguments PyFloat {F} f.

Record Point (F : Type) : Type := {
  pt_time : string;
  pt_value : PyValue F
}.
Arguments pt_time {F} p.
Arguments pt_value {F} p.

(** ** The collaborators

    What the crawler calls and does not implement.  [World] is their
    state (the chain, the clock); a call may change it and may raise.
    Floats stay abstract: the crawler only formats them and tests them
    for zero. *)
Class Collaborators : Type := {
  World : Type;
  pyfloat : Type;
  (** [str.format] of a float, and [bool(x)] negated. *)
  float_repr : pyfloat -> string;
  float_is_zero : pyfloat -> bool;
  (** [agent.blockchain.client.w3.eth.getBlock('latest').timestamp] *)
  getBlock_latest_timestamp : World -> result Z * World;
  get_current_period : World -> result Z * World;
  (** The keys of [known_nodes.abridged_nodes_dict()], in dict order. *)
  abridged_nodes_dict : World -> result (list string) * World;
  get_worker_from_staker : string -> World -> result string * World;
  owned_tokens : string -> World -> result Z * World;
  get_locked_tokens : string -> World -> result Z * World;
  (** [float(NU.from_nunits(n).to_tokens())] *)
  nunits_to_tokens : Z -> pyfloat;
  (** [TokenEconomicsFactory.get_economics(registry).seconds_per_period] *)
  get_economics : World -> result Z * World;
  (** [StakeList(...)] refreshed: its initial and terminal periods. *)
  stakes_refresh : string -> World -> result (Z * Z) * World;
  (** [datetime_at_period(p, seconds_per_period).datetime().timestamp()] *)
  datetime_at_period : Z -> Z -> World -> result pyfloat * World;
  get_last_active_period : string -> World -> result Z * World;
  get_all_locked_tokens : Z -> World -> result Z * World;
  (** [datetime.utcnow()]: the proleptic Gregorian ordinal of today's date. *)
  utcnow_ordinal : World -> Z * World;
  (** [MayaDT.from_datetime(d).rfc3339()] of midnight of an ordinal day. *)
  rfc3339 : Z -> string;
  (** [MayaDT.from_rfc3339(s).datetime()], as seconds since the epoch. *)
  from_rfc3339 : string -> result Z;
  (** The store's query engine: the points a query evaluates to. *)
  run_query : string -> InfluxDB -> result (list (Point pyfloat))
}.

Section Model.
Context {C : Collaborators}.

(** ** The state: collaborators, store, the crawler's attributes, trace *)

Record State : Type := {
  world : World;
  influx : InfluxDB;
  _client : option InfluxDBClient;
  _refresh_rate : Z;
  _restart_on_error : bool;
  _node_learning_task : LoopingCall;
  _contract_learning_task : LoopingCall;
  __snapshot : gmap string (gmap Z Z);
  events : list Event
}.

Definition set_world (w : World) (st : State) : State :=
  {| world := w; influx := influx st; _client := _client st;
     _refresh_rate := _refresh_rate st; _restart_on_error := _restart_on_error st;
     _node_learning_task := _node_learning_task st;
     _contract_learning_task := _contract_learning_task st;
     __snapshot := __snapshot st; events := events st |}.

Definition set_influx (s : InfluxDB) (st : State) : State :=
  {| world := world st; influx := s; _client := _client st;
     _refresh_rate := _refresh_rate st; _restart_on_error := _restart_on_error st;
     _node_learning_task := _node_learning_task st;
     _contract_learning_task := _contract_learning_task st;
     __snapshot := __snapshot st; events := events st |}.

Definition set_client (c : option InfluxDBClient) (st : State) : State :=
  {| world := world st; influx := influx st; _client := c;
     _refresh_rate := _refresh_rate st; _restart_on_error := _restart_on_error st;
     _node_learning_task := _node_learning_task st;
     _contract_learning_task := _contract_learning_task st;
     __snapshot := __snapshot st; events := events st |}.

Definition set_snapshot (m : gmap string (gmap Z Z)) (st : State) : State :=
  {| world := world st; influx := influx st; _client := _client st;
     _refresh_rate := _refresh_rate st; _restart_on_error := _restart_on_error st;
     _node_learning_task := _node_learning_task st;
     _contract_learning_task := _contract_learning_task st;
     __snapshot := m; events := events st |}.

Definition add_event (e : Event) (st : State) : State :=
  {| world := world st; influx := influx st; _client := _client st;
     _refresh_rate := _refresh_rate st; _restart_on_error := _restart_on_error st;
     _node_learning_task := _node_learning_task st;
     _contract_learning_task := _contract_learning_task st;
     __snapshot := __snapshot st; events := events st ++ [e] |}.

Definition task (t : TaskId) (st : State) : LoopingCall :=
  match t with
  | NodeTask => _node_learning_task st
  | ContractTask => _contract_learning_task st
  end.

Definition set_task (t : TaskId) (lc : LoopingCall) (st : State) : State :=
  {| world := world st; influx := influx st; _client := _client st;
     _refresh_rate := _refresh_rate st; _restart_on_error := _restart_on_error st;
     _node_learning_task :=
       match t with NodeTask => lc | ContractTask => _node_learning_task st end;
     _contract_learning_task :=
       match t with NodeTask => _contract_learning_task st | ContractTask => lc end;
     __snapshot := __snapshot st; events := events st |}.

(** ** The monad *)

Definition M (A : Type) : Type := State -> result A * State.

Definition ret {A : Type} (a : A) : M A := fun st => (Ok a, st).

Definition raise {A : Type} (e : Exc) : M A := fun st => (Raise e, st).

Definition bind {A B : Type} (m : M A) (k : A -> M B) : M B :=
  fun st =>
    match m st with
    | (Ok a, st') => k a st'
    | (Raise e, st') => (Raise e, st')
    end.

End Model.

Notation "x <- m ;; k" := (bind m (fun x => k))
  (at level 100, m at next level, right associativity).
Notation "m ;;; k" := (bind m (fun _ => k))
  (at level 100, right associativity).

Section Crawler.
Context {C : Collaborators}.

(** ** Primitive steps *)

(** A call on the blockchain side: it sees and changes only [world]. *)
Definition ask {A : Type} (f : World -> result A * World) : M A :=
  fun st => let (r, w) := f (world st) in (r, set_world w st).

(** A request to the store: it sees and changes only [influx]. *)
Definition request {A : Type} (f : InfluxDB -> result A * InfluxDB) : M A :=
  fun st => let (r, s) := f (influx st) in (r, set_influx s st).

Definition emit (e : Event) : M unit :=
  fun st => (Ok tt, add_event e st).

(** [self.log.<level>(...)] with the message already formatted: the
    logger itself does not raise.  Formatting that can raise is a step of
    its own, before the call ([MayaDT_format] below). *)
Definition log (lvl : Level) (msg : LogMsg) : M unit := emit (Log lvl msg).

(** A pure computation that may raise. *)
Definition lift {A : Type} (r : result A) : M A := fun st => (r, st).

(** [self._client.<method>]: the attribute lookup fails on [None]. *)
Definition the_client (method : string) : M InfluxDBClient :=
  fun st =>
    match _client st with
    | Some c => (Ok c, st)
    | None =>
        (Raise (AttributeError ("'NoneType' object has no attribute '" +:+ method +:+ "'")), st)
    end.

(** ** Schema bootstrap: [_ensure_db_exists] *)

Definition _ensure_db_exists : M unit :=
  _ <- the_client "get_list_database" ;;
  emit Call_get_list_database ;;;
  db_list <- request (fun s => (influx_get_list_database s, s)) ;;
  let found_db := List.filter (fun db => String.eqb db DB_NAME) db_list in
  if Nat.eqb (length found_db) 0 then
    log INFO (MsgDatabaseNotFound DB_NAME) ;;;
    _ <- the_client "create_database" ;;
    emit (Call_create_database DB_NAME) ;;;
    request (influx_create_database DB_NAME) ;;;
    _ <- the_client "create_retention_policy" ;;
    emit (Call_create_retention_policy DB_RETENTION_POLICY_NAME
            DB_RETENTION_POLICY_PERIOD DB_RETENTION_POLICY_REPLICATION
            DB_NAME true) ;;;
    request (influx_create_retention_policy DB_RETENTION_POLICY_NAME
               DB_RETENTION_POLICY_PERIOD DB_RETENTION_POLICY_REPLICATION
               DB_NAME true)
  else
    log INFO (MsgDatabaseExists DB_NAME).

(** ** Contract sampling: [_learn_about_contracts] *)

(** [range(1, 365+1)] *)
Definition period_range : list Z := seqZ 1 365.

(** The dict comprehension: one collaborator call per day, in order, each
    answer stored under its day in the dict being built. *)
Fixpoint token_counter_of (days : list Z) (acc : gmap Z Z) : M (gmap Z Z) :=
  match days with
  | [] => ret acc
  | day :: rest =>
      v <- ask (get_all_locked_tokens day) ;;
      token_counter_of rest (<[day := v]> acc)
  end.

Definition _learn_about_contracts : M unit :=
  token_counter <- token_counter_of period_range ∅ ;;
  fun st =>
    (Ok tt,
     set_snapshot (<["future_locked_tokens" := token_counter]> (__snapshot st)) st).

(** The [snapshot] property: the dict object itself. *)
Definition snapshot (st : State) : gmap string (gmap Z Z) := __snapshot st.

(** ** Node sampling: [_learn_about_nodes] *)

(** [str.format] of an int. *)
Definition str (z : Z) : string := NilZero.string_of_int (Z.to_int z).

(** [DB_LINE_PROTOCOL.format(...)] *)
Definition DB_LINE_PROTOCOL_format
    (measurement staker_address worker_address : string)
    (start_date end_date stake locked_stake : pyfloat)
    (current_period last_confirmed_period timestamp : Z) : string :=
  measurement +:+ ",staker_address=" +:+ staker_address +:+ " " +:+
  "worker_address=" +:+ dquote +:+ worker_address +:+ dquote +:+ "," +:+
  "start_date=" +:+ float_repr start_date +:+ "," +:+
  "end_date=" +:+ float_repr end_date +:+ "," +:+
  "stake=" +:+ float_repr stake +:+ "," +:+
  "locked_stake=" +:+ float_repr locked_stake +:+ "," +:+
  "current_period=" +:+ str current_period +:+ "i," +:+
  "last_confirmed_period=" +:+ str last_confirmed_period +:+ "i " +:+
  str timestamp.

(** The body of the loop over [nodes_dict], up to the line it appends. *)
Definition sample_node (block_time current_period : Z) (staker_address : string)
  : M string :=
  worker <- ask (get_worker_from_staker staker_address) ;;
  stake <- ask (owned_tokens staker_address) ;;
  let staked_nu_tokens := nunits_to_tokens stake in
  locked <- ask (get_locked_tokens staker_address) ;;
  let locked_nu_tokens := nunits_to_tokens locked in
  seconds_per_period <- ask get_economics ;;
  stakes <- ask (stakes_refresh staker_address) ;;
  start_date <- ask (datetime_at_period (fst stakes) seconds_per_period) ;;
  end_date <- ask (datetime_at_period (snd stakes) seconds_per_period) ;;
  last_confirmed_period <- ask (get_last_active_period staker_address) ;;
  ret (DB_LINE_PROTOCOL_format DB_MEASUREMENT staker_address worker
         start_date end_date staked_nu_tokens locked_nu_tokens
         current_period last_confirmed_period block_time).

Fixpoint sample_nodes (block_time current_period : Z) (nodes : list string)
    (data : list string) : M (list string) :=
  match nodes with
  | [] => ret data
  | staker_address :: rest =>
      line <- sample_node block_time current_period staker_address ;;
      sample_nodes block_time current_period rest (data ++ [line])
  end.

(** [f'{MayaDT(epoch=block_time)}']: maya formats
    [datetime.utcfromtimestamp(epoch)], which exists for the years 1 to
    9999 only.  Outside them CPython raises [ValueError] (year out of
    range), beyond the C library's calendar [OSError], and beyond a 64-bit
    [time_t] [OverflowError]. *)
Definition MIN_EPOCH : Z := -62135596800.
Definition MAX_EPOCH : Z := 253402300799.

Definition MayaDT_format (epoch : Z) : result unit :=
  if (MIN_EPOCH <=? epoch) && (epoch <=? MAX_EPOCH) then Ok tt
  else if (-67768040609740800 <=? epoch) && (epoch <=? 67768036191676799) then
    Raise (ValueError "year is out of range")
  else if (-9223372036854775808 <=? epoch) && (epoch <=? 9223372036854775807) then
    Raise (OSError "Value too large for defined data type")
  else Raise (OverflowError "timestamp out of range for platform time_t").

(** Lines 86-128: everything before the write.  The f-string of the info
    line is evaluated before [log.info] is called. *)
Definition collect_node_data : M (Z * Z * list string) :=
  block_time <- ask getBlock_latest_timestamp ;;
  current_period <- ask get_current_period ;;
  nodes_dict <- ask abridged_nodes_dict ;;
  lift (MayaDT_format block_time) ;;;
  log INFO (MsgProcessingNodes (length nodes_dict) block_time current_period) ;;;
  data <- sample_nodes block_time current_period nodes_dict [] ;;
  ret (block_time, current_period, data).

(** Lines 130-137: the one [write_points] call and the warning. *)
Definition write_node_data (sampled : Z * Z * list string) : M unit :=
  let block_time := fst (fst sampled) in
  let current_period := snd (fst sampled) in
  let data := snd sampled in
  _ <- the_client "write_points" ;;
  emit (Call_write_points data DB_NAME "s" 10000 "line") ;;;
  written <- request (influx_write_points data DB_NAME 10000) ;;
  if negb written then
    lift (MayaDT_format block_time) ;;;
    log WARN (MsgUnableToWrite DB_NAME block_time current_period)
  else ret tt.

Definition _learn_about_nodes : M unit :=
  sampled <- collect_node_data ;;
  write_node_data sampled.

(** ** The two periodic tasks *)

Definition task_body (t : TaskId) : M unit :=
  match t with
  | NodeTask => _learn_about_nodes
  | ContractTask => _learn_about_contracts
  end.

(** What [LoopingCall.__call__] does when the body raised: the call
    stops ([self.running = False]). *)
Definition halted (lc : LoopingCall) : LoopingCall :=
  {| running := false; interval := interval lc;
     run_at_start := run_at_start lc; errback := errback lc |}.

(** [LoopingCall.start(interval, now)]: twisted asserts that the call is
    not running ([assert not self.running]) and refuses a negative
    interval ([ValueError]); then the call runs, on a fresh deferred, and
    with [now=True] the body is called before [start] returns.  A raise
    of the body does not leave [start]: the call stops and the deferred
    fails with it.  The answer is the deferred as the crawler can see it:
    [None] while it is pending, [Some failure] once it has failed. *)
Definition LoopingCall_start (t : TaskId) (seconds : Z) (now : bool)
  : M (option Exc) :=
  emit (Call_task_start t seconds now) ;;;
  fun st =>
    if running (task t st) then
      (Raise (AssertionError "Tried to start an already running LoopingCall."), st)
    else if seconds <? 0 then
      (Raise (ValueError "interval must be >= 0"), st)
    else
      let st1 := set_task t {| running := true; interval := Some seconds;
                               run_at_start := now; errback := false |} st in
      if now then
        match task_body t st1 with
        | (Ok _, st2) => (Ok None, st2)
        | (Raise failure, st2) => (Ok (Some failure), set_task t (halted (task t st2)) st2)
        end
      else (Ok None, st1).

(** [LoopingCall.stop()]: twisted asserts that the call is running. *)
Definition LoopingCall_stop (t : TaskId) : M unit :=
  emit (Call_task_stop t) ;;;
  fun st =>
    let lc := task t st in
    if running lc then
      (Ok tt,
       set_task t {| running := false; interval := interval lc;
                     run_at_start := run_at_start lc; errback := errback lc |} st)
    else
      (Raise (AssertionError "Tried to stop a LoopingCall that was not running."), st).

(** [deferred.addErrback(handler)]: on a pending deferred the handler is
    attached; on a deferred that has failed already it is called at once,
    and what it raises stays in the deferred, so [addErrback] returns
    either way. *)
Definition addErrback (handler : Exc -> M unit) (t : TaskId)
    (deferred : option Exc) : M unit :=
  fun st =>
    match deferred with
    | None =>
        let lc := task t st in
        (Ok tt,
         set_task t {| running := running lc; interval := interval lc;
                       run_at_start := run_at_start lc; errback := true |} st)
    | Some failure => (Ok tt, snd (handler failure st))
    end.

Definition is_running (st : State) : bool :=
  running (_node_learning_task st) && running (_contract_learning_task st).

Definition open_client : M unit :=
  fun st =>
    match _client st with
    | None =>
        (Ok tt,
         add_event (ClientOpened "localhost" 8086 DB_NAME)
           (set_client (Some {| host := "localhost"; port := 8086;
                                database := DB_NAME |}) st))
    | Some _ => (Ok tt, st)
    end.

(** ** The error policy: [_handle_errors], given the [start] it calls *)

Definition handle_errors_with (restart : M unit) (failure : Exc) : M unit :=
  fun st =>
    if _restart_on_error st then
      (log WARN (MsgRestarting failure) ;;;
       fun st' =>
         if negb (running (_node_learning_task st')) then restart st'
         else (Ok tt, st')) st
    else
      log CRITICAL (MsgUnhandled failure) st.

(** ** [start] and [stop]

    [start] and [_handle_errors] call each other: [start] runs the first
    cycles, and attaching the errback to a deferred that has failed calls
    [_handle_errors], which may call [start].  Python ends such a nesting
    with a [RecursionError]; [depth] is the number of nested [start]
    calls still allowed. *)
Fixpoint start_at (depth : nat) : M unit :=
  match depth with
  | O => raise (RecursionError "maximum recursion depth exceeded")
  | S depth' =>
      emit Call_start ;;;
      fun st =>
        if negb (is_running st) then
          (log INFO MsgStarting ;;;
           open_client ;;;
           let offset := 2 in
           node_learner_deferred <-
             LoopingCall_start NodeTask (_refresh_rate st) true ;;
           contract_learner_deferred <-
             LoopingCall_start ContractTask (_refresh_rate st - offset) true ;;
           addErrback (handle_errors_with (start_at depth')) NodeTask
             node_learner_deferred ;;;
           addErrback (handle_errors_with (start_at depth')) ContractTask
             contract_learner_deferred) st
        else (Ok tt, st)
  end.

(** [sys.getrecursionlimit()], an upper bound on the nesting: every
    nested [start] takes more than one frame.  The statements about
    [start] hold for every bound that the run they describe can reach. *)
Definition recursion_limit : nat := 1000.

Definition start : M unit := start_at recursion_limit.

Definition _handle_errors (failure : Exc) : M unit :=
  handle_errors_with start failure.

Definition stop : M unit :=
  fun st =>
    if is_running st then
      (log INFO MsgStopping ;;;
       _ <- the_client "close" ;;
       emit ClientClosed ;;;
       (fun st' => (Ok tt, set_client None st')) ;;;
       LoopingCall_stop NodeTask ;;;
       LoopingCall_stop ContractTask) st
    else (Ok tt, st).

(** One later firing of a task ([LoopingCall.__call__]), the task
    boundary: a raise in the body stops that task ([running = False]) and
    goes to the deferred's errback; with none attached the failure stays
    unhandled.  The answer is what the deferred holds afterwards. *)
Definition LoopingCall_call (t : TaskId) : M unit :=
  fun st =>
    match task_body t st with
    | (Ok _, st') => (Ok tt, st')
    | (Raise failure, st') =>
        let lc := task t st' in
        let st'' :=
          set_task t {| running := false; interval := interval lc;
                        run_at_start := run_at_start lc; errback := errback lc |} st' in
        if errback lc then _handle_errors failure st''
        else (Raise failure, st'')
    end.

(** The states [start] passes through: after its guard, with a client
    held; and a task as [LoopingCall.start(seconds, now=True)] sets it
    before the first cycle. *)
Definition entered (st : State) : State :=
  snd (open_client (add_event (Log INFO MsgStarting) (add_event Call_start st))).

Definition armed (t : TaskId) (seconds : Z) (st : State) : State :=
  set_task t {| running := true; interval := Some seconds;
                run_at_start := true; errback := false |}
    (add_event (Call_task_start t seconds true) st).

Definition attached (t : TaskId) (st : State) : State :=
  let lc := task t st in
  set_task t {| running := running lc; interval := interval lc;
                run_at_start := run_at_start lc; errback := true |} st.

(** ** Construction: [__init__]

    The constructor, on the world and the store it finds: the attributes
    are set, the two tasks created (not running), a client opened, the
    schema ensured, and last the snapshot set to an empty dict.  A raise
    in [_ensure_db_exists] leaves the constructor, so no crawler is built;
    the state returned with it holds what happened before. *)
Definition __init__ (w : World) (store : InfluxDB)
    (refresh_rate : Z) (restart_on_error : bool) : result unit * State :=
  (emit (ClientOpened "localhost" 8086 DB_NAME) ;;;
   _ensure_db_exists ;;;
   fun st => (Ok tt, set_snapshot ∅ st))
    {| world := w; influx := store;
       _client := Some {| host := "localhost"; port := 8086; database := DB_NAME |};
       _refresh_rate := refresh_rate; _restart_on_error := restart_on_error;
       _node_learning_task := new_LoopingCall;
       _contract_learning_task := new_LoopingCall;
       __snapshot := ∅; events := [] |}.

End Crawler.

Section HistoricalQueries.
Context {C : Collaborators}.

(** ** [MoeCrawlerDBClient]: the historical queries *)

(** Python's [date] and [timedelta] bounds.  A date is its proleptic
    Gregorian ordinal: 0001-01-01 is 1 and 9999-12-31 is 3652059. *)
Definition MINORDINAL : Z := 1.
Definition MAXORDINAL : Z := 3652059.
Definition MAXDELTA : Z := 999999999.

(** [timedelta(days=n)] *)
Definition timedelta (days : Z) : result Z :=
  if Z.abs days <=? MAXDELTA then Ok days
  else Raise (OverflowError "days; must have magnitude <= 999999999").

Definition checked_date (ordinal : Z) : result Z :=
  if (MINORDINAL <=? ordinal) && (ordinal <=? MAXORDINAL) then Ok ordinal
  else Raise (OverflowError "date value out of range").

(** [d + delta] and [d - delta] on a datetime at midnight. *)
Definition datetime_add (d delta : Z) : result Z := checked_date (d + delta).
Definition datetime_sub (d delta : Z) : result Z := checked_date (d - delta).

(** Lines 198-201 and 227-230: midnight of today, and the first day. *)
Definition range_of (days : Z) : M (Z * Z) :=
  today <- ask (fun w => let (d, w') := utcnow_ordinal w in (Ok d, w')) ;;
  let range_end := today in
  delta <- lift (timedelta (days - 1)) ;;
  range_begin <- lift (datetime_sub range_end delta) ;;
  ret (range_begin, range_end).

(** [range_end + timedelta(days=1)], evaluated inside the query text. *)
Definition next_day (range_end : Z) : M Z :=
  one_day <- lift (timedelta 1) ;;
  lift (datetime_add range_end one_day).

(** The text of the locked-tokens query, piece by piece as in the source. *)
Definition locked_tokens_query (range_begin range_stop : Z) : string :=
  "SELECT SUM(locked_stake) " +:+
  "FROM (" +:+
  "SELECT staker_address, current_period, " +:+
  "LAST(locked_stake) " +:+
  "AS locked_stake " +:+
  "FROM moe_network_info " +:+
  "WHERE time >= '" +:+ rfc3339 range_begin +:+ "' " +:+
  "AND " +:+
  "time < '" +:+ rfc3339 range_stop +:+ "' " +:+
  "GROUP BY staker_address, time(1d)" +:+
  ") " +:+
  "GROUP BY time(1d)".

(** The text of the staker-count query, piece by piece as in the source. *)
Definition num_stakers_query (range_begin range_stop : Z) : string :=
  "SELECT COUNT(staker_address) FROM " +:+
  "(" +:+
  "SELECT staker_address, LAST(locked_stake)" +:+
  "FROM moe_network_info WHERE " +:+
  "time >= '" +:+ rfc3339 range_begin +:+ "' AND " +:+
  "time < '" +:+ rfc3339 range_stop +:+ "' " +:+
  "GROUP BY staker_address, time(1d)" +:+
  ") " +:+
  "GROUP BY time(1d)".

(** [self._client.query(q).get_points()] as a list. *)
Definition query (q : string) : M (list (Point pyfloat)) :=
  emit (Call_query q) ;;;
  fun st => (run_query q (influx st), st).

(** Python's truth value of an aggregate: [None], [0] and [0.0] are falsy. *)
Definition truthy (v : PyValue pyfloat) : bool :=
  match v with
  | PyNone => false
  | PyInt z => negb (z =? 0)
  | PyFloat f => negb (float_is_zero f)
  end.

(** [d[k] = v] on an [OrderedDict]: a known key keeps its place. *)
Fixpoint od_setitem {V : Type} (k : Z) (v : V) (d : list (Z * V)) : list (Z * V) :=
  match d with
  | [] => [(k, v)]
  | (k', v') :: d' =>
      if k' =? k then (k, v) :: d' else (k', v') :: od_setitem k v d'
  end.

(** The loop over [results] (lines 218-222 and 244-248). *)
Fixpoint collect_points (results : list (Point pyfloat))
    (d : list (Z * PyValue pyfloat)) : result (list (Z * PyValue pyfloat)) :=
  match results with
  | [] => Ok d
  | r :: rest =>
      let locked_stake := pt_value r in
      if truthy locked_stake then
        match from_rfc3339 (pt_time r) with
        | Ok day => collect_points rest (od_setitem day locked_stake d)
        | Raise e => Raise e
        end
      else collect_points rest d
  end.

Definition get_historical_locked_tokens_over_range (days : Z)
  : M (list (Z * PyValue pyfloat)) :=
  range <- range_of days ;;
  let range_begin := fst range in
  let range_end := snd range in
  range_stop <- next_day range_end ;;
  results <- query (locked_tokens_query range_begin range_stop) ;;
  lift (collect_points results []).

Definition get_historical_num_stakers_over_range (days : Z)
  : M (list (Z * PyValue pyfloat)) :=
  range <- range_of days ;;
  let range_begin := fst range in
  let range_end := snd range in
  range_stop <- next_day range_end ;;
  results <- query (num_stakers_query range_begin range_stop) ;;
  lift (collect_points results []).

End HistoricalQueries.

Section SpecWords.
Context {C : Collaborators}.

(** ** The spec's wire format and query contract, in the spec's words

    These definitions follow section 6 of the specification, not the
    code; the theorems compare the code's output with them. *)

Definition is_digit (c : ascii) : bool :=
  (48 <=? nat_of_ascii c)%nat && (nat_of_ascii c <=? 57)%nat.

Fixpoint all_digits (s : string) : bool :=
  match s with
  | EmptyString => true
  | String c s' => is_digit c && all_digits s'
  end.

Definition digits (s : string) : bool :=
  match s with
  | EmptyString => false
  | _ => all_digits s
  end.

(** [<int>] and [<unix_seconds>]: an optional sign and decimal digits. *)
Definition spec_int (s : string) : bool :=
  match s with
  | String c s' => if Ascii.eqb c "-" then digits s' else digits s
  | EmptyString => false
  end.

(** [<float>]: what formatting a float gives. *)
Definition spec_float (s : string) : Prop := exists f : pyfloat, s = float_repr f.

(** One record of the wire format:
    [moe_network_info,staker_address=<id> worker_address="<id>",
     start_date=<float>,end_date=<float>,stake=<float>,
     locked_stake=<float>,current_period=<int>i,
     last_confirmed_period=<int>i <unix_seconds>]. *)
Definition spec_line (line : string) : Prop :=
  exists staker worker start_date end_date stake locked_stake
         current_period last_confirmed_period unix_seconds : string,
    spec_float start_date /\ spec_float end_date /\
    spec_float stake /\ spec_float locked_stake /\
    spec_int current_period = true /\
    spec_int last_confirmed_period = true /\
    spec_int unix_seconds = true /\
    line =
      "moe_network_info,staker_address=" +:+ staker +:+
      " worker_address=" +:+ dquote +:+ worker +:+ dquote +:+
      ",start_date=" +:+ start_date +:+
      ",end_date=" +:+ end_date +:+
      ",stake=" +:+ stake +:+
      ",locked_stake=" +:+ locked_stake +:+
      ",current_period=" +:+ current_period +:+ "i" +:+
      ",last_confirmed_period=" +:+ last_confirmed_period +:+ "i" +:+
      " " +:+ unix_seconds.

(** The timestamp of a record: the text after its last space. *)
Fixpoint after_last_space (field : string) (s : string) : string :=
  match s with
  | EmptyString => field
  | String c s' =>
      if Ascii.eqb c " " then after_last_space EmptyString s'
      else after_last_space (field +:+ String c EmptyString) s'
  end.

Definition sample_time_of (line : string) : string :=
  after_last_space EmptyString line.

Fixpoint no_space (s : string) : bool :=
  match s with
  | EmptyString => true
  | String c s' => negb (Ascii.eqb c " ") && no_space s'
  end.

(** The record of one participant in a cycle: its own tag, the cycle's
    period and the cycle's sample time; the other fields are whatever
    the collaborators answered for it. *)
Definition record_of (block_time current_period : Z) (staker line : string) : Prop :=
  exists (worker : string) (start_date end_date stake locked_stake : pyfloat)
         (last_confirmed_period : Z),
    line = DB_LINE_PROTOCOL_format DB_MEASUREMENT staker worker
             start_date end_date stake locked_stake
             current_period last_confirmed_period block_time.

(** The nested aggregation of the query contract.  Inner:
    [SELECT <tag>, LAST(<field>) FROM <measurement> WHERE time >= <rfc3339>
     AND time < <rfc3339> GROUP BY <tag>, time(1d)]; outer:
    [SELECT SUM(...) FROM (<inner>) GROUP BY time(1d)]. *)
Record spec_inner : Type := {
  in_tag : string;
  in_carried : list string;
  in_last_field : string;
  in_alias : string;
  in_measurement : string;
  in_from : Z;
  in_until : Z;
  in_bucket : string
}.

Record spec_nested : Type := {
  out_aggregate : string;
  out_field : string;
  out_inner : spec_inner;
  out_bucket : string
}.

Definition spec_render_inner (q : spec_inner) : string :=
  "SELECT " +:+ in_tag q +:+ ", " +:+
  fold_right (fun col rest => col +:+ ", " +:+ rest) "" (in_carried q) +:+
  "LAST(" +:+ in_last_field q +:+ ") AS " +:+ in_alias q +:+
  " FROM " +:+ in_measurement q +:+
  " WHERE time >= '" +:+ rfc3339 (in_from q) +:+
  "' AND time < '" +:+ rfc3339 (in_until q) +:+
  "' GROUP BY " +:+ in_tag q +:+ ", time(" +:+ in_bucket q +:+ ")".

Definition spec_render (q : spec_nested) : string :=
  "SELECT " +:+ out_aggregate q +:+ "(" +:+ out_field q +:+ ") FROM (" +:+
  spec_render_inner (out_inner q) +:+
  ") GROUP BY time(" +:+ out_bucket q +:+ ")".

(** [locked_stake_series(days)] of section 4.6 for today's ordinal:
    the range [[today - (days - 1), today + 1)], the last locked stake
    per participant per day inside, summed per day outside. *)
Definition spec_locked_stake_series (today days : Z) : spec_nested :=
  {| out_aggregate := "SUM";
     out_field := "locked_stake";
     out_inner :=
       {| in_tag := "staker_address";
          in_carried := ["current_period"];
          in_last_field := "locked_stake";
          in_alias := "locked_stake";
          in_measurement := "moe_network_info";
          in_from := today - (days - 1);
          in_until := today + 1;
          in_bucket := "1d" |};
     out_bucket := "1d" |}.

(** "Non-null and non-zero", for an aggregate. *)
Definition nonnull_nonzero (v : PyValue pyfloat) : Prop :=
  v <> PyNone /\ v <> PyInt 0 /\ forall f, v = PyFloat f -> float_is_zero f = false.

(** Every row that the loop keeps has a time that parses. *)
Definition parses (rows : list (Point pyfloat)) : Prop :=
  Forall (fun r => truthy (pt_value r) = true ->
                   exists day, from_rfc3339 (pt_time r) = Ok day) rows.

End SpecWords.

Section ContractSteps.
Context {C : Collaborators}.

(** ** The contract cycle step by step

    [_learn_about_contracts] at the grain a reader of [snapshot] could
    interleave with: one collaborator call per step while the new dict
    is a local of the comprehension, then the one assignment. *)

Inductive ContractCycle : Type :=
| Building (remaining : list Z) (token_counter : gmap Z Z)
| Stored
| Aborted (e : Exc).

Definition contract_step (pc : ContractCycle) (st : State) : ContractCycle * State :=
  match pc with
  | Building [] token_counter =>
      (Stored,
       set_snapshot (<["future_locked_tokens" := token_counter]> (__snapshot st)) st)
  | Building (day :: rest) token_counter =>
      match ask (get_all_locked_tokens day) st with
      | (Ok v, st') => (Building rest (<[day := v]> token_counter), st')
      | (Raise e, st') => (Aborted e, st')
      end
  | Stored => (Stored, st)
  | Aborted e => (Aborted e, st)
  end.

Fixpoint contract_steps (n : nat) (pc : ContractCycle) (st : State)
  : ContractCycle * State :=
  match n with
  | O => (pc, st)
  | S n' => let (pc', st') := contract_step pc st in contract_steps n' pc' st'
  end.

(** The collaborator's answers for the days, asked in order from [w]. *)
Inductive answers : World -> list Z -> list Z -> World -> Prop :=
| answers_nil w : answers w [] [] w
| answers_cons w day v w1 days vs w2 :
    get_all_locked_tokens day w = (Ok v, w1) ->
    answers w1 days vs w2 ->
    answers w (day :: days) (v :: vs) w2.

(** The answers as a run: ask for each day in turn, stop at a raise. *)
Fixpoint ask_all (w : World) (days : list Z) : result (list Z) * World :=
  match days with
  | [] => (Ok [], w)
  | day :: rest =>
      match get_all_locked_tokens day w with
      | (Ok v, w1) =>
          match ask_all w1 rest with
          | (Ok vs, w2) => (Ok (v :: vs), w2)
          | (Raise e, w2) => (Raise e, w2)
          end
      | (Raise e, w1) => (Raise e, w1)
      end
  end.

(** The dict after storing each answer under its day, in order. *)
Fixpoint fill (days vs : list Z) (acc : gmap Z Z) : gmap Z Z :=
  match days, vs with
  | day :: days', v :: vs' => fill days' vs' (<[day := v]> acc)
  | _, _ => acc
  end.

(** The store writes a trace holds, oldest first. *)
Fixpoint written_batches (evs : list Event) : list (list string) :=
  match evs with
  | [] => []
  | Call_write_points data _ _ _ _ :: rest => data :: written_batches rest
  | _ :: rest => written_batches rest
  end.

(** How often [start] was entered in a trace. *)
Fixpoint start_calls (evs : list Event) : nat :=
  match evs with
  | [] => O
  | Call_start :: rest => S (start_calls rest)
  | _ :: rest => start_calls rest
  end.

(** The databases and retention policies a trace asked the store to create. *)
Fixpoint creations (evs : list Event) : list Event :=
  match evs with
  | [] => []
  | Call_create_database n :: rest => Call_create_database n :: creations rest
  | Call_create_retention_policy n d r db df :: rest =>
      Call_create_retention_policy n d r db df :: creations rest
  | _ :: rest => creations rest
  end.

End ContractSteps.

(** ** A small network to run the model on

    The world is the height of the latest block; every answered call
    moves it by one.  The chain stops answering the staking agent's
    aggregate query at height 1000, and the staker [0xDEAD] has no
    worker.  Token amounts are whole, so a float is an integer here. *)

Definition demo_str (z : Z) : string := NilZero.string_of_int (Z.to_int z).

Definition demo_points (q : string) : list (Point Z) :=
  if String.eqb (substring 7 3 q) "SUM" then
    [ {| pt_time := "2019-11-01T00:00:00Z"; pt_value := PyFloat 150 |};
      {| pt_time := "2019-11-02T00:00:00Z"; pt_value := PyNone |};
      {| pt_time := "2019-11-03T00:00:00Z"; pt_value := PyFloat 0 |} ]
  else
    [ {| pt_time := "2019-11-01T00:00:00Z"; pt_value := PyInt 2 |};
      {| pt_time := "2019-11-02T00:00:00Z"; pt_value := PyInt 0 |};
      {| pt_time := "2019-11-03T00:00:00Z"; pt_value := PyInt 3 |} ].

Definition demo_from_rfc3339 (s : string) : result Z :=
  if String.eqb s "2019-11-01T00:00:00Z" then Ok 1572566400
  else if String.eqb s "2019-11-02T00:00:00Z" then Ok 1572652800
  else if String.eqb s "2019-11-03T00:00:00Z" then Ok 1572739200
  else Raise (ValueError "not an RFC 3339 time").

Definition demo : Collaborators := {|
  World := Z;
  pyfloat := Z;
  float_repr := fun f => demo_str f +:+ ".0";
  float_is_zero := fun f => f =? 0;
  getBlock_latest_timestamp := fun w => (Ok (w * 13 + 1572739200), w + 1);
  get_current_period := fun w => (Ok 18203, w + 1);
  abridged_nodes_dict := fun w =>
    (Ok (if w <? 100 then ["0xA1"; "0xB2"; "0xC3"] else ["0xA1"; "0xDEAD"]), w + 1);
  get_worker_from_staker := fun a w =>
    if String.eqb a "0xDEAD" then (Raise (CollaboratorError "no worker"), w)
    else (Ok ("0xW" +:+ a), w + 1);
  owned_tokens := fun _ w => (Ok 45000, w + 1);
  get_locked_tokens := fun a w =>
    (Ok (if String.eqb a "0xB2" then 0 else 15000), w + 1);
  nunits_to_tokens := fun n => n;
  get_economics := fun w => (Ok 86400, w + 1);
  stakes_refresh := fun _ w => (Ok (18200, 18230), w + 1);
  datetime_at_period := fun p s w => (Ok (p * s), w + 1);
  get_last_active_period := fun _ w => (Ok 18203, w + 1);
  get_all_locked_tokens := fun day w =>
    if w <? 1000 then (Ok (day * 1000), w + 1)
    else (Raise (CollaboratorError "chain unreachable"), w);
  utcnow_ordinal := fun w => (737366, w);
  rfc3339 := fun d => "day " +:+ demo_str d;
  from_rfc3339 := demo_from_rfc3339;
  run_query := fun q _ => Ok (demo_points q)
|}.

Definition demo_client : InfluxDBClient :=
  {| host := "localhost"; port := 8086; database := DB_NAME |}.

Definition demo_store (h : Health) : InfluxDB :=
  {| health := h;
     databases :=
       [{| db_name := "_internal"; db_policies := []; db_points := [] |};
        {| db_name := "network"; db_policies := []; db_points := [] |}] |}.

Definition demo_empty_store : InfluxDB :=
  {| health := Healthy;
     databases := [{| db_name := "_internal"; db_policies := []; db_points := [] |}] |}.

Definition started (seconds : Z) : LoopingCall :=
  {| running := true; interval := Some seconds; run_at_start := true; errback := true |}.

Definition failed (seconds : Z) : LoopingCall :=
  {| running := false; interval := Some seconds; run_at_start := true; errback := true |}.

(** A crawler as [__init__] leaves it: tasks created, client held. *)
Definition demo_fresh (height : Z) (store : InfluxDB) (rate : Z) : @State demo :=
  {| world := (height : @World demo); influx := store; _client := Some demo_client;
     _refresh_rate := rate; _restart_on_error := true;
     _node_learning_task := new_LoopingCall;
     _contract_learning_task := new_LoopingCall;
     __snapshot := ∅; events := [] |}.

(** A crawler after [start()]: both tasks running with their errbacks. *)
Definition demo_running (height : Z) (store : InfluxDB) : @State demo :=
  {| world := (height : @World demo); influx := store; _client := Some demo_client;
     _refresh_rate := 60; _restart_on_error := true;
     _node_learning_task := started 60;
     _contract_learning_task := started 58;
     __snapshot := {[ "future_locked_tokens" := {[ 1 := 7000 ]} ]};
     events := [] |}.

(** A crawler whose contract task failed while the node task runs on. *)
Definition demo_contract_down (height : Z) : @State demo :=
  {| world := (height : @World demo); influx := demo_store Healthy; _client := Some demo_client;
     _refresh_rate := 60; _restart_on_error := true;
     _node_learning_task := started 60;
     _contract_learning_task := failed 58;
     __snapshot := ∅; events := [] |}.

(** The same network before anything is known, with a store whose
    health decides its queries: no known nodes, and a query raises on an
    unreachable store. *)
Definition quiet_demo : Collaborators := {|
  World := Z;
  pyfloat := Z;
  float_repr := fun f => demo_str f +:+ ".0";
  float_is_zero := fun f => f =? 0;
  getBlock_latest_timestamp := fun w => (Ok (w * 13 + 1572739200), w + 1);
  get_current_period := fun w => (Ok 18203, w + 1);
  abridged_nodes_dict := fun w => (Ok [], w + 1);
  get_worker_from_staker := fun a w => (Ok ("0xW" +:+ a), w + 1);
  owned_tokens := fun _ w => (Ok 45000, w + 1);
  get_locked_tokens := fun _ w => (Ok 15000, w + 1);
  nunits_to_tokens := fun n => n;
  get_economics := fun w => (Ok 86400, w + 1);
  stakes_refresh := fun _ w => (Ok (18200, 18230), w + 1);
  datetime_at_period := fun p s w => (Ok (p * s), w + 1);
  get_last_active_period := fun _ w => (Ok 18203, w + 1);
  get_all_locked_tokens := fun day w => (Ok (day * 1000), w + 1);
  utcnow_ordinal := fun w => (737366, w);
  rfc3339 := fun d => "day " +:+ demo_str d;
  from_rfc3339 := demo_from_rfc3339;
  run_query := fun q s =>
    match health s with
    | Unreachable e => Raise e
    | _ => Ok (demo_points q)
    end
|}.

(** The quiet network on a chain that stops answering the staking
    agent's aggregate query at height 100. *)
Definition fading_demo : Collaborators := {|
  World := Z;
  pyfloat := Z;
  float_repr := fun f => demo_str f +:+ ".0";
  float_is_zero := fun f => f =? 0;
  getBlock_latest_timestamp := fun w => (Ok (w * 13 + 1572739200), w + 1);
  get_current_period := fun w => (Ok 18203, w + 1);
  abridged_nodes_dict := fun w => (Ok [], w + 1);
  get_worker_from_staker := fun a w => (Ok ("0xW" +:+ a), w + 1);
  owned_tokens := fun _ w => (Ok 45000, w + 1);
  get_locked_tokens := fun _ w => (Ok 15000, w + 1);
  nunits_to_tokens := fun n => n;
  get_economics := fun w => (Ok 86400, w + 1);
  stakes_refresh := fun _ w => (Ok (18200, 18230), w + 1);
  datetime_at_period := fun p s w => (Ok (p * s), w + 1);
  get_last_active_period := fun _ w => (Ok 18203, w + 1);
  get_all_locked_tokens := fun day w =>
    if w <? 100 then (Ok (day * 1000), w + 1)
    else (Raise (CollaboratorError "chain unreachable"), w);
  utcnow_ordinal := fun w => (737366, w);
  rfc3339 := fun d => "day " +:+ demo_str d;
  from_rfc3339 := demo_from_rfc3339;
  run_query := fun q _ => Ok (demo_points q)
|}.

Definition fading_fresh (height : Z) (store : InfluxDB) : @State fading_demo :=
  {| world := (height : @World fading_demo); influx := store;
     _client := Some demo_client;
     _refresh_rate := 60; _restart_on_error := true;
     _node_learning_task := new_LoopingCall;
     _contract_learning_task := new_LoopingCall;
     __snapshot := ∅; events := [] |}.

Definition quiet_fresh (height : Z) (store : InfluxDB) : @State quiet_demo :=
  {| world := (height : @World quiet_demo); influx := store;
     _client := Some demo_client;
     _refresh_rate := 60; _restart_on_error := true;
     _node_learning_task := new_LoopingCall;
     _contract_learning_task := new_LoopingCall;
     __snapshot := ∅; events := [] |}.

(** A started crawler that does not restart on error. *)
Definition demo_no_restart (height : Z) : @State demo :=
  {| world := (height : @World demo); influx := demo_store Healthy;
     _client := Some demo_client;
     _refresh_rate := 60; _restart_on_error := false;
     _node_learning_task := started 60;
     _contract_learning_task := started 58;
     __snapshot := ∅; events := [] |}.

(** Rows as a store could return them: two for one day, and one
    whose time is no RFC 3339 time. *)
Definition demo_rows_same_day : list (Point Z) :=
  [ {| pt_time := "2019-11-01T00:00:00Z"; pt_value := PyFloat 150 |};
    {| pt_time := "2019-11-02T00:00:00Z"; pt_value := PyFloat 40 |};
    {| pt_time := "2019-11-01T00:00:00Z"; pt_value := PyFloat 175 |} ].

Definition demo_rows_bad_time : list (Point Z) :=
  [ {| pt_time := "2019-11-01T00:00:00Z"; pt_value := PyFloat 150 |};
    {| pt_time := "yesterday"; pt_value := PyFloat 40 |};
    {| pt_time := "2019-11-03T00:00:00Z"; pt_value := PyFloat 175 |} ].

Section Readings.
Context {C : Collaborators}.

(** Reading a decimal integer back: the inverse of [str]. *)
Definition decode_int (s : string) : option Z :=
  option_map Z.of_int (NilZero.int_of_string s).

(** The rows the loop over a query result keeps. *)
Definition kept (rows : list (Point pyfloat)) : list (Point pyfloat) :=
  List.filter (fun r => truthy (pt_value r)) rows.

(** The entries of an [OrderedDict] under one key. *)
Fixpoint od_get {V : Type} (k : Z) (d : list (Z * V)) : option V :=
  match d with
  | [] => None
  | (k', v) :: d' => if k' =? k then Some v else od_get k d'
  end.

End Readings.

Section Frames.
Context {C : Collaborators}.

(** A computation that only talks to the blockchain side leaves
    everything but [world] as it was. *)
Definition only_world {A : Type} (m : M A) : Prop :=
  forall st r st', m st = (r, st') -> exists w, st' = set_world w st.

(** What a cycle of either task leaves alone: the client, the settings
    and both LoopingCalls; and it adds to the trace without entering
    [start]. *)
Definition body_frame (st st' : State) : Prop :=
  _client st' = _client st /\
  _refresh_rate st' = _refresh_rate st /\
  _restart_on_error st' = _restart_on_error st /\
  _node_learning_task st' = _node_learning_task st /\
  _contract_learning_task st' = _contract_learning_task st /\
  exists evs, events st' = events st ++ evs /\ start_calls evs = 0%nat.

End Frames.

(** Case analysis on the flags and attributes a lifecycle method reads. *)
Ltac crunch :=
  repeat (simpl;
          match goal with
          | |- context [_client ?s] => destruct (_client s) eqn:?
          | |- context [running ?t] => destruct (running t) eqn:?
          | |- context [_restart_on_error ?s] => destruct (_restart_on_error s) eqn:?
          | |- context [?a <? ?b] => destruct (a <? b) eqn:?
          end);
  simpl.

(** * Proofs *)

Section MonadLemmas.
Context {C : Collaborators}.

Lemma bind_Ok_inv {A B : Type} (m : M A) (k : A -> M B) st b st' :
  bind m k st = (Ok b, st') ->
  exists a st1, m st = (Ok a, st1) /\ k a st1 = (Ok b, st').
Proof.
  unfold bind. destruct (m st) as [[a | e] st1]; intros H.
  - exists a, st1. split; [reflexivity | exact H].
  - discriminate H.
Qed.

Lemma bind_Raise_inv {A B : Type} (m : M A) (k : A -> M B) st e st' :
  bind m k st = (Raise e, st') ->
  m st = (Raise e, st') \/
  exists a st1, m st = (Ok a, st1) /\ k a st1 = (Raise e, st').
Proof.
  unfold bind. destruct (m st) as [[a | e0] st1]; intros H.
  - right. exists a, st1. split; [reflexivity | exact H].
  - left. inversion H; subst. reflexivity.
Qed.

Lemma bind_Ok_eq {A B : Type} (m : M A) (k : A -> M B) st a st1 :
  m st = (Ok a, st1) -> bind m k st = k a st1.
Proof. intros H. unfold bind. rewrite H. reflexivity. Qed.

Lemma bind_Raise_eq {A B : Type} (m : M A) (k : A -> M B) st e st1 :
  m st = (Raise e, st1) -> bind m k st = (Raise e, st1).
Proof. intros H. unfold bind. rewrite H. reflexivity. Qed.

Lemma ask_inv {A : Type} (f : World -> result A * World) st r st' :
  ask f st = (r, st') ->
  exists w, f (world st) = (r, w) /\ st' = set_world w st.
Proof.
  unfold ask. destruct (f (world st)) as [r0 w] eqn:E. intros H.
  inversion H; subst. exists w. split; reflexivity.
Qed.

Lemma only_world_ask {A : Type} (f : World -> result A * World) :
  only_world (ask f).
Proof.
  intros st r st' H. apply ask_inv in H. destruct H as (w & _ & ->).
  exists w. reflexivity.
Qed.

Lemma only_world_ret {A : Type} (a : A) : only_world (ret a).
Proof.
  intros st r st' H. inversion H; subst. exists (world st').
  destruct st'; reflexivity.
Qed.

Lemma only_world_bind {A B : Type} (m : M A) (k : A -> M B) :
  only_world m -> (forall a, only_world (k a)) -> only_world (bind m k).
Proof.
  intros Hm Hk st r st' H. unfold bind in H.
  destruct (m st) as [[a | e] st1] eqn:E.
  - destruct (Hm _ _ _ E) as (w1 & ->).
    destruct (Hk a _ _ _ H) as (w2 & ->). exists w2. reflexivity.
  - inversion H; subst. exact (Hm _ _ _ E).
Qed.

Lemma only_world_sample_node bt cp staker : only_world (sample_node bt cp staker).
Proof.
  unfold sample_node.
  repeat (apply only_world_bind; [apply only_world_ask | intros ?]).
  apply only_world_ret.
Qed.

Lemma only_world_sample_nodes bt cp nodes :
  forall data, only_world (sample_nodes bt cp nodes data).
Proof.
  induction nodes as [| staker rest IH]; intros data; simpl.
  - apply only_world_ret.
  - apply only_world_bind; [apply only_world_sample_node | intros line; apply IH].
Qed.

Lemma only_world_token_counter_of days :
  forall acc, only_world (token_counter_of days acc).
Proof.
  induction days as [| day rest IH]; intros acc; simpl.
  - apply only_world_ret.
  - apply only_world_bind; [apply only_world_ask | intros v; apply IH].
Qed.

End MonadLemmas.

Section WireFormat.
Context {C : Collaborators}.

Lemma all_digits_uint d : all_digits (NilEmpty.string_of_uint d) = true.
Proof. induction d; simpl; auto. Qed.

Lemma digits_uint d : digits (NilZero.string_of_uint d) = true.
Proof. destruct d; try reflexivity; simpl; apply all_digits_uint. Qed.

Lemma spec_int_digits s : digits s = true -> spec_int s = true.
Proof.
  destruct s as [| c s']; [discriminate |]. intros H. unfold spec_int.
  destruct (Ascii.eqb c "-") eqn:E; [| exact H].
  apply Ascii.eqb_eq in E. subst c. simpl in H. discriminate H.
Qed.

Lemma spec_int_str z : spec_int (str z) = true.
Proof.
  unfold str. destruct z as [| p | p]; simpl.
  - reflexivity.
  - apply spec_int_digits, digits_uint.
  - apply digits_uint.
Qed.

Lemma all_digits_no_space s : all_digits s = true -> no_space s = true.
Proof.
  induction s as [| c s' IH]; simpl; [reflexivity |].
  intros H. apply andb_true_iff in H. destruct H as [Hc Hs].
  rewrite (IH Hs), andb_true_r.
  destruct (Ascii.eqb c " ") eqn:E; [| reflexivity].
  apply Ascii.eqb_eq in E. subst c. discriminate Hc.
Qed.

Lemma digits_all s : digits s = true -> all_digits s = true.
Proof. destruct s; [discriminate | exact (fun H => H)]. Qed.

Lemma no_space_str z : no_space (str z) = true.
Proof.
  unfold str. destruct z as [| p | p]; simpl.
  - reflexivity.
  - apply all_digits_no_space, digits_all, digits_uint.
  - apply all_digits_no_space, digits_all, digits_uint.
Qed.

Lemma append_cons c s t : String c s +:+ t = String c (s +:+ t).
Proof. reflexivity. Qed.

Lemma append_nil_r s : s +:+ "" = s.
Proof. induction s as [| c s' IH]; [reflexivity |]. rewrite append_cons, IH. reflexivity. Qed.

Lemma append_snoc s c t : (s +:+ String c "") +:+ t = s +:+ String c t.
Proof.
  induction s as [| c' s' IH]; [reflexivity |].
  rewrite !append_cons, IH. reflexivity.
Qed.

Lemma after_last_space_no_space s :
  forall field, no_space s = true -> after_last_space field s = field +:+ s.
Proof.
  induction s as [| c s' IH]; intros field H; simpl in *.
  - symmetry. apply append_nil_r.
  - apply andb_true_iff in H. destruct H as [Hc Hs].
    destruct (Ascii.eqb c " "); [discriminate Hc |].
    rewrite (IH _ Hs). apply append_snoc.
Qed.

Lemma after_last_space_app p :
  forall field q,
    after_last_space field (p +:+ q) = after_last_space (after_last_space field p) q.
Proof.
  induction p as [| c p' IH]; intros field q; [reflexivity |].
  rewrite append_cons. simpl.
  destruct (Ascii.eqb c " "); apply IH.
Qed.

Lemma format_sample_time m s w sd ed stake locked cp lcp ts :
  sample_time_of (DB_LINE_PROTOCOL_format m s w sd ed stake locked cp lcp ts) = str ts.
Proof.
  unfold sample_time_of, DB_LINE_PROTOCOL_format.
  rewrite !after_last_space_app.
  match goal with
  | |- after_last_space (after_last_space ?f _) _ = _ =>
      generalize f; intros field
  end.
  change (after_last_space field "i ") with EmptyString.
  rewrite after_last_space_no_space by apply no_space_str.
  reflexivity.
Qed.

Lemma format_spec_line s w sd ed stake locked cp lcp ts :
  spec_line (DB_LINE_PROTOCOL_format DB_MEASUREMENT s w sd ed stake locked cp lcp ts).
Proof.
  exists s, w, (float_repr sd), (float_repr ed), (float_repr stake),
    (float_repr locked), (str cp), (str lcp), (str ts).
  repeat split; try (eexists; reflexivity); try apply spec_int_str.
Qed.
End WireFormat.

Section NodeCycle.
Context {C : Collaborators}.

Lemma written_batches_app evs evs' :
  written_batches (evs ++ evs') = written_batches evs ++ written_batches evs'.
Proof.
  induction evs as [| e rest IH]; simpl; [reflexivity |].
  destruct e; simpl; rewrite ?IH; reflexivity.
Qed.

Lemma sample_node_Ok bt cp staker st line st' :
  sample_node bt cp staker st = (Ok line, st') -> record_of bt cp staker line.
Proof.
  unfold sample_node. intros H.
  repeat (apply bind_Ok_inv in H; destruct H as (? & ? & _ & H); cbv beta zeta in H).
  inversion H; subst. unfold record_of. eauto 10.
Qed.

Lemma sample_nodes_Ok bt cp nodes :
  forall data st out st',
    sample_nodes bt cp nodes data st = (Ok out, st') ->
    exists lines, out = data ++ lines /\ Forall2 (record_of bt cp) nodes lines.
Proof.
  induction nodes as [| staker rest IH]; intros data st out st' H; simpl in H.
  - inversion H; subst. exists []. split; [symmetry; apply app_nil_r | constructor].
  - apply bind_Ok_inv in H. destruct H as (line & st1 & Hline & H).
    apply IH in H. destruct H as (lines & -> & Hrest).
    exists (line :: lines). split.
    + rewrite <- app_assoc. reflexivity.
    + constructor; [eapply sample_node_Ok; eassumption | exact Hrest].
Qed.

(** What the sampling phase leaves behind when it succeeds. *)
Lemma collect_node_data_Ok st bt cp data st1 :
  collect_node_data st = (Ok (bt, cp, data), st1) ->
  exists w1 w2 nodes w3 w4,
    getBlock_latest_timestamp (world st) = (Ok bt, w1) /\
    get_current_period w1 = (Ok cp, w2) /\
    abridged_nodes_dict w2 = (Ok nodes, w3) /\
    sample_nodes bt cp nodes []
      (add_event (Log INFO (MsgProcessingNodes (length nodes) bt cp)) (set_world w3 st))
      = (Ok data, st1) /\
    st1 = add_event (Log INFO (MsgProcessingNodes (length nodes) bt cp)) (set_world w4 st).
Proof.
  unfold collect_node_data. intros H.
  apply bind_Ok_inv in H. destruct H as (bt' & sa & Ha & H).
  apply ask_inv in Ha. destruct Ha as (w1 & Ha & ->).
  apply bind_Ok_inv in H. destruct H as (cp' & sb & Hb & H).
  apply ask_inv in Hb. destruct Hb as (w2 & Hb & ->).
  apply bind_Ok_inv in H. destruct H as (nodes & sc & Hc & H).
  apply ask_inv in Hc. destruct Hc as (w3 & Hc & ->).
  apply bind_Ok_inv in H. destruct H as ([] & sf & Hf & H).
  unfold lift in Hf. apply pair_equal_spec in Hf. destruct Hf as [_ <-].
  apply bind_Ok_inv in H. destruct H as ([] & sd & Hd & H).
  inversion Hd; subst sd; clear Hd.
  apply bind_Ok_inv in H. destruct H as (data' & se & He & H).
  inversion H; subst; clear H.
  destruct (only_world_sample_nodes _ _ _ _ _ _ _ He) as (w4 & Hw4).
  exists w1, w2, nodes, w3, w4. repeat split; try assumption.
Qed.

Lemma write_node_data_Ok sampled st1 st' :
  write_node_data sampled st1 = (Ok tt, st') ->
  written_batches (events st') = written_batches (events st1) ++ [snd sampled].
Proof.
  unfold write_node_data. intros H. cbv zeta in H.
  apply bind_Ok_inv in H. destruct H as (c & sa & Ha & H).
  unfold the_client in Ha. destruct (_client st1); inversion Ha; subst; clear Ha.
  apply bind_Ok_inv in H. destruct H as ([] & sb & Hb & H).
  inversion Hb; subst sb; clear Hb.
  apply bind_Ok_inv in H. destruct H as (written & sc & Hc & H).
  unfold request in Hc.
  destruct (influx_write_points _ _ _ _) as [r s]. inversion Hc; subst; clear Hc.
  destruct written; simpl in H.
  - inversion H; subst; clear H; simpl.
    rewrite written_batches_app; simpl; rewrite ?app_nil_r; reflexivity.
  - apply bind_Ok_inv in H. destruct H as ([] & sf & Hf & H).
    unfold lift in Hf. apply pair_equal_spec in Hf. destruct Hf as [_ <-].
    inversion H; subst; clear H; simpl.
    rewrite !written_batches_app; simpl; rewrite ?app_nil_r; reflexivity.
Qed.

(** C1. A node-sampling cycle that ends without a raise read the block
    timestamp once, at its start, and passed to the store's one write
    exactly one record per known participant, in order: each record is
    that participant's, matches the wire format of the specification
    (measurement, staker tag, the six fields with the two periods
    suffixed [i], trailing unix seconds), and carries that one block
    timestamp as its sample time. *)
Theorem node_cycle_one_record_per_participant st st' :
  _learn_about_nodes st = (Ok tt, st') ->
  exists block_time w1 current_period w2 nodes w3 data,
    getBlock_latest_timestamp (world st) = (Ok block_time, w1) /\
    get_current_period w1 = (Ok current_period, w2) /\
    abridged_nodes_dict w2 = (Ok nodes, w3) /\
    written_batches (events st') = written_batches (events st) ++ [data] /\
    length data = length nodes /\
    Forall2 (record_of block_time current_period) nodes data /\
    Forall (fun line =>
              spec_line line /\ sample_time_of line = str block_time) data.
Proof.
  unfold _learn_about_nodes. intros H.
  apply bind_Ok_inv in H. destruct H as ([[bt cp] data] & st1 & Hc & Hw).
  apply collect_node_data_Ok in Hc.
  destruct Hc as (w1 & w2 & nodes & w3 & w4 & Hbt & Hcp & Hn & Hs & Hst1).
  apply sample_nodes_Ok in Hs. destruct Hs as (lines & Hlines & Hrec).
  simpl in Hlines. subst lines.
  apply write_node_data_Ok in Hw. simpl in Hw.
  exists bt, w1, cp, w2, nodes, w3, data.
  repeat split; try assumption.
  - rewrite Hw, Hst1. simpl. rewrite written_batches_app. simpl.
    rewrite app_nil_r. reflexivity.
  - symmetry. eapply Forall2_length. exact Hrec.
  - clear - Hrec. induction Hrec as [| staker line nodes data Hline _ IH];
      constructor; [| exact IH].
    destruct Hline as (worker & sd & ed & stake & locked & lcp & ->).
    split; [apply format_spec_line | apply format_sample_time].
Qed.

End NodeCycle.

Section NodeFailures.
Context {C : Collaborators}.

(** The sampling phase changes [world] and logs one line at most. *)
Lemma collect_node_data_frame st r st1 :
  collect_node_data st = (r, st1) ->
  exists w,
    st1 = set_world w st \/
    exists n bt cp, st1 = add_event (Log INFO (MsgProcessingNodes n bt cp)) (set_world w st).
Proof.
  unfold collect_node_data, bind. intros H.
  destruct (ask getBlock_latest_timestamp st) as [[bt | e] sa] eqn:Ea;
    apply ask_inv in Ea; destruct Ea as (w1 & _ & ->);
    [| inversion H; subst; exists w1; left; reflexivity].
  destruct (ask get_current_period _) as [[cp | e] sb] eqn:Eb;
    apply ask_inv in Eb; destruct Eb as (w2 & _ & ->);
    [| inversion H; subst; exists w2; left; reflexivity].
  destruct (ask abridged_nodes_dict _) as [[nodes | e] sc] eqn:Ec;
    apply ask_inv in Ec; destruct Ec as (w3 & _ & ->);
    [| inversion H; subst; exists w3; left; reflexivity].
  unfold lift in H.
  destruct (MayaDT_format bt) as [[] | e];
    [| inversion H; subst; exists w3; left; reflexivity].
  unfold log, emit in H.
  destruct (sample_nodes _ _ _ _ _) as [[data | e] sd] eqn:Ed;
    destruct (only_world_sample_nodes _ _ _ _ _ _ _ Ed) as (w4 & ->);
    inversion H; subst; exists w4; right; exists (length nodes), bt, cp; reflexivity.
Qed.


(** The client has no falsy answer: a write returns [True] or raises. *)
Lemma write_batches_never_False bs db s s' :
  write_batches bs db s <> (Ok false, s').
Proof.
  revert s. induction bs as [| batch rest IH]; intros s; simpl; [congruence |].
  destruct (influx_write batch db s) as [[[] | e] s1]; [apply IH | congruence].
Qed.

Lemma write_points_never_False data db size s s' :
  influx_write_points data db size s <> (Ok false, s').
Proof.
  unfold influx_write_points. destruct (0 <? size).
  - apply write_batches_never_False.
  - destruct (influx_write data db s) as [[[] | e] s1]; congruence.
Qed.

(** A store that refuses writes makes the cycle's write raise. *)
Lemma write_points_rejected data db s :
  data <> [] -> health s = Rejecting ->
  influx_write_points data db 10000 s =
    (Raise (CollaboratorError "InfluxDBClientError"), s).
Proof.
  intros Hd Hh. unfold influx_write_points.
  change (0 <? 10000) with true. cbv iota. unfold _batches.
  destruct data as [| line rest]; [congruence |].
  cbn [length batches_from write_batches]. unfold influx_write. rewrite Hh.
  reflexivity.
Qed.

(** C8. When the store rejects the cycle's write, [write_points] raises
    instead of answering [False]: the cycle ends with the client's
    exception after the one write call and logs no warning, so the
    branch of line 136 is never taken ([write_points] has no falsy
    answer).  At the task boundary the node task stops and the exception
    is handed to [_handle_errors], the restart policy. *)
Theorem rejected_write_raises st block_time current_period data st1 c :
  collect_node_data st = (Ok (block_time, current_period, data), st1) ->
  _client st = Some c ->
  data <> [] ->
  health (influx st) = Rejecting ->
  errback (_node_learning_task st) = true ->
  (forall points s s', influx_write_points points DB_NAME 10000 s <> (Ok false, s')) /\
  exists w n cycle_end stopped,
    cycle_end =
      add_event (Call_write_points data DB_NAME "s" 10000 "line")
        (add_event (Log INFO (MsgProcessingNodes n block_time current_period))
           (set_world w st)) /\
    _learn_about_nodes st = (Raise (CollaboratorError "InfluxDBClientError"), cycle_end) /\
    stopped = set_task NodeTask (halted (_node_learning_task st)) cycle_end /\
    running (_node_learning_task stopped) = false /\
    LoopingCall_call NodeTask st =
      _handle_errors (CollaboratorError "InfluxDBClientError") stopped.
Proof.
  intros Hc Hclient Hdata Hhealth Herr.
  split; [intros; apply write_points_never_False |].
  destruct (collect_node_data_Ok _ _ _ _ _ Hc)
    as (w1 & w2 & nodes & w3 & w4 & _ & _ & _ & _ & Hst1).
  exists w4, (length nodes). eexists. eexists.
  split; [reflexivity |].
  assert (Hl : _learn_about_nodes st =
               (Raise (CollaboratorError "InfluxDBClientError"),
                add_event (Call_write_points data DB_NAME "s" 10000 "line")
                  (add_event (Log INFO (MsgProcessingNodes (length nodes)
                                          block_time current_period))
                     (set_world w4 st)))).
  { unfold _learn_about_nodes. rewrite (bind_Ok_eq _ _ _ _ _ Hc). subst st1.
    unfold write_node_data, bind, the_client, emit, request.
    cbn [influx _client add_event set_world set_influx fst snd]. rewrite Hclient.
    cbn [influx _client add_event set_world set_influx fst snd].
    rewrite (write_points_rejected _ _ _ Hdata Hhealth).
    unfold set_influx, add_event, set_world; cbn. reflexivity. }
  split; [exact Hl |]. split; [reflexivity |]. split; [reflexivity |].
  unfold LoopingCall_call, task_body, task. rewrite Hl. cbv beta iota zeta.
  cbn [_node_learning_task add_event set_world]. unfold halted.
  rewrite Herr. reflexivity.
Qed.

End NodeFailures.

(** C1 on the small network: three participants, three records. *)
Lemma node_cycle_witness :
  exists st',
    @_learn_about_nodes demo (demo_running 5 (demo_store Healthy)) = (Ok tt, st') /\
    exists data,
      written_batches (events st') = [data] /\ length data = 3%nat.
Proof.
  assert (H : @_learn_about_nodes demo (demo_running 5 (demo_store Healthy)) =
              (Ok tt, snd (@_learn_about_nodes demo (demo_running 5 (demo_store Healthy)))))
    by (vm_compute; reflexivity).
  eexists. split; [exact H |].
  destruct (node_cycle_one_record_per_participant _ _ H)
    as (bt & w1 & cp & w2 & nodes & w3 & data & H1 & H2 & H3 & H4 & H5 & _).
  exists data. split; [exact H4 |].
  rewrite H5. vm_compute in H1. inversion H1; subst.
  vm_compute in H2. inversion H2; subst.
  vm_compute in H3. inversion H3; subst. reflexivity.
Defined.


(** C8 on the small network: a store that rejects the three records. *)
Lemma rejected_write_witness :
  exists st',
    @_learn_about_nodes demo (demo_running 5 (demo_store Rejecting)) =
      (Raise (CollaboratorError "InfluxDBClientError"), st') /\
    influx st' = demo_store Rejecting /\
    forall lvl, ~ In (Log lvl (MsgUnableToWrite DB_NAME 1572739265 18203)) (events st').
Proof.
  assert (H : exists data st1,
             @collect_node_data demo (demo_running 5 (demo_store Rejecting)) =
               (Ok (1572739265, 18203, data), st1) /\ data <> []).
  { eexists. eexists. split; [vm_compute; reflexivity | discriminate]. }
  destruct H as (data & st1 & H & Hdata).
  destruct (rejected_write_raises _ _ _ _ _ demo_client H eq_refl Hdata eq_refl eq_refl)
    as (_ & w & n & cycle_end & stopped & -> & Hrun & _).
  eexists. split; [exact Hrun |]. split; [reflexivity |].
  intros lvl [Hin | [Hin | []]]; discriminate Hin.
Defined.

Section Lifecycle.
Context {C : Collaborators}.

Lemma start_calls_app evs evs' :
  start_calls (evs ++ evs') = (start_calls evs + start_calls evs')%nat.
Proof.
  induction evs as [| e rest IH]; simpl; [reflexivity |].
  destruct e; simpl; rewrite ?IH; reflexivity.
Qed.

(** *** The cycles keep to their frame *)

Lemma body_frame_refl st : body_frame st st.
Proof.
  unfold body_frame. repeat split. exists []. rewrite app_nil_r. split; reflexivity.
Qed.

Lemma body_frame_trans st1 st2 st3 :
  body_frame st1 st2 -> body_frame st2 st3 -> body_frame st1 st3.
Proof.
  intros (A1 & A2 & A3 & A4 & A5 & evs & A6 & A7)
         (B1 & B2 & B3 & B4 & B5 & evs' & B6 & B7).
  unfold body_frame. repeat split; try congruence.
  exists (evs ++ evs'). split.
  - rewrite B6, A6, app_assoc. reflexivity.
  - rewrite start_calls_app, A7, B7. reflexivity.
Qed.

Lemma body_frame_set_world w st : body_frame st (set_world w st).
Proof.
  unfold body_frame. repeat split. exists []. rewrite app_nil_r. split; reflexivity.
Qed.

Lemma body_frame_set_influx s st : body_frame st (set_influx s st).
Proof.
  unfold body_frame. repeat split. exists []. rewrite app_nil_r. split; reflexivity.
Qed.

Lemma body_frame_set_snapshot m st : body_frame st (set_snapshot m st).
Proof.
  unfold body_frame. repeat split. exists []. rewrite app_nil_r. split; reflexivity.
Qed.

Lemma body_frame_log lvl msg st : body_frame st (add_event (Log lvl msg) st).
Proof.
  unfold body_frame. repeat split. exists [Log lvl msg]. split; reflexivity.
Qed.

Lemma body_frame_write data db tp size proto st :
  body_frame st (add_event (Call_write_points data db tp size proto) st).
Proof.
  unfold body_frame. repeat split.
  exists [Call_write_points data db tp size proto]. split; reflexivity.
Qed.

Lemma learn_about_contracts_frame st r st' :
  _learn_about_contracts st = (r, st') -> body_frame st st'.
Proof.
  unfold _learn_about_contracts, bind. intros H.
  destruct (token_counter_of period_range ∅ st) as [[tc | e] st1] eqn:E;
    destruct (only_world_token_counter_of _ _ _ _ _ E) as (w & ->);
    apply pair_equal_spec in H; destruct H as [_ <-].
  - eapply body_frame_trans; [apply body_frame_set_world | apply body_frame_set_snapshot].
  - apply body_frame_set_world.
Qed.

Lemma write_node_data_frame sampled st r st' :
  write_node_data sampled st = (r, st') -> body_frame st st'.
Proof.
  unfold write_node_data, bind, the_client, emit, request, lift, log, emit.
  cbv zeta. intros H.
  destruct (_client st) eqn:Ec;
    [| apply pair_equal_spec in H; destruct H as [_ <-]; apply body_frame_refl].
  cbn [influx add_event] in H.
  destruct (influx_write_points _ _ _ _) as [[written | e] s].
  - destruct written; cbn [negb] in H.
    + apply pair_equal_spec in H; destruct H as [_ <-].
      eapply body_frame_trans; [apply body_frame_write | apply body_frame_set_influx].
    + destruct (MayaDT_format _) as [[] | e];
        apply pair_equal_spec in H; destruct H as [_ <-].
      * eapply body_frame_trans; [apply body_frame_write |].
        eapply body_frame_trans; [apply body_frame_set_influx | apply body_frame_log].
      * eapply body_frame_trans; [apply body_frame_write | apply body_frame_set_influx].
  - apply pair_equal_spec in H; destruct H as [_ <-].
    eapply body_frame_trans; [apply body_frame_write | apply body_frame_set_influx].
Qed.

Lemma learn_about_nodes_frame st r st' :
  _learn_about_nodes st = (r, st') -> body_frame st st'.
Proof.
  unfold _learn_about_nodes, bind. intros H.
  destruct (collect_node_data st) as [[sampled | e] st1] eqn:E;
    assert (F1 : body_frame st st1)
      by (destruct (collect_node_data_frame _ _ _ E) as (w & [-> | (n & bt & cp & ->)]);
          [apply body_frame_set_world
          | eapply body_frame_trans; [apply body_frame_set_world | apply body_frame_log]]).
  - eapply body_frame_trans; [exact F1 | eapply write_node_data_frame; exact H].
  - apply pair_equal_spec in H; destruct H as [_ <-]. exact F1.
Qed.

Lemma task_body_frame t st r st' : task_body t st = (r, st') -> body_frame st st'.
Proof.
  destruct t; [apply learn_about_nodes_frame | apply learn_about_contracts_frame].
Qed.

(** *** [LoopingCall.start] case by case *)

Lemma LoopingCall_start_running t seconds now st :
  running (task t st) = true ->
  LoopingCall_start t seconds now st =
    (Raise (AssertionError "Tried to start an already running LoopingCall."),
     add_event (Call_task_start t seconds now) st).
Proof.
  intros H. unfold LoopingCall_start, bind, emit.
  replace (task t (add_event (Call_task_start t seconds now) st)) with (task t st)
    by (destruct t; reflexivity).
  rewrite H. reflexivity.
Qed.

Lemma LoopingCall_start_negative t seconds now st :
  running (task t st) = false -> seconds < 0 ->
  LoopingCall_start t seconds now st =
    (Raise (ValueError "interval must be >= 0"),
     add_event (Call_task_start t seconds now) st).
Proof.
  intros H Hs. unfold LoopingCall_start, bind, emit.
  replace (task t (add_event (Call_task_start t seconds now) st)) with (task t st)
    by (destruct t; reflexivity).
  rewrite H. apply Z.ltb_lt in Hs. rewrite Hs. reflexivity.
Qed.

(** With [now=True] the first cycle runs inside [LoopingCall.start]. *)
Lemma LoopingCall_start_now t seconds st :
  running (task t st) = false -> 0 <= seconds ->
  LoopingCall_start t seconds true st =
    match task_body t (armed t seconds st) with
    | (Ok _, st2) => (Ok None, st2)
    | (Raise failure, st2) =>
        (Ok (Some failure), set_task t (halted (task t st2)) st2)
    end.
Proof.
  intros H Hs. unfold LoopingCall_start, bind, emit.
  replace (task t (add_event (Call_task_start t seconds true) st)) with (task t st)
    by (destruct t; reflexivity).
  rewrite H. apply Z.ltb_ge in Hs. rewrite Hs. reflexivity.
Qed.

(** *** [start] and [_handle_errors] case by case *)

Lemma start_is_start_at : start = start_at (S 999).
Proof. reflexivity. Qed.

Lemma entered_spec st :
  _node_learning_task (entered st) = _node_learning_task st /\
  _contract_learning_task (entered st) = _contract_learning_task st /\
  _refresh_rate (entered st) = _refresh_rate st /\
  _restart_on_error (entered st) = _restart_on_error st /\
  world (entered st) = world st /\ influx (entered st) = influx st /\
  __snapshot (entered st) = __snapshot st /\
  _client (entered st) =
    match _client st with
    | Some c => Some c
    | None => Some {| host := "localhost"; port := 8086; database := DB_NAME |}
    end /\
  events (entered st) =
    events st ++ [Call_start; Log INFO MsgStarting] ++
    match _client st with
    | Some _ => []
    | None => [ClientOpened "localhost" 8086 DB_NAME]
    end.
Proof.
  unfold entered, open_client. cbn [_client add_event].
  destruct (_client st) eqn:E; cbn; rewrite <- ?app_assoc; rewrite ?E;
    repeat split; reflexivity.
Qed.

Lemma start_at_running depth st :
  is_running st = true -> start_at (S depth) st = (Ok tt, add_event Call_start st).
Proof.
  intros H. cbn [start_at]. unfold bind, emit.
  replace (is_running (add_event Call_start st)) with (is_running st) by reflexivity.
  rewrite H. reflexivity.
Qed.

(** [start] past its guard: the two task starts and the two errbacks,
    from the state with the client held. *)
Lemma start_at_stopped depth st :
  is_running st = false ->
  start_at (S depth) st =
    (node_learner_deferred <-
       LoopingCall_start NodeTask (_refresh_rate st) true ;;
     contract_learner_deferred <-
       LoopingCall_start ContractTask (_refresh_rate st - 2) true ;;
     addErrback (handle_errors_with (start_at depth)) NodeTask
       node_learner_deferred ;;;
     addErrback (handle_errors_with (start_at depth)) ContractTask
       contract_learner_deferred) (entered st).
Proof.
  intros H. cbn [start_at]. unfold bind at 1. unfold emit at 1.
  replace (is_running (add_event Call_start st)) with (is_running st) by reflexivity.
  rewrite H. cbn [negb]. unfold bind at 1. unfold log at 1. unfold emit at 1.
  unfold bind at 1. unfold entered, open_client. cbn [_client add_event].
  destruct (_client st); reflexivity.
Qed.

(** With the node task running, the error policy only logs. *)
Lemma handle_errors_with_node_running restart failure st :
  _restart_on_error st = true ->
  running (_node_learning_task st) = true ->
  handle_errors_with restart failure st =
    (Ok tt, add_event (Log WARN (MsgRestarting failure)) st).
Proof.
  intros Hr Hn. unfold handle_errors_with, bind, log, emit. rewrite Hr.
  cbn [_node_learning_task add_event]. rewrite Hn. reflexivity.
Qed.

Lemma handle_errors_node_running failure st :
  _restart_on_error st = true ->
  running (_node_learning_task st) = true ->
  _handle_errors failure st = (Ok tt, add_event (Log WARN (MsgRestarting failure)) st).
Proof. apply handle_errors_with_node_running. Qed.

(** With the node task stopped, the error policy enters [start] once. *)
Lemma handle_errors_with_node_stopped restart failure st :
  _restart_on_error st = true ->
  running (_node_learning_task st) = false ->
  handle_errors_with restart failure st =
    restart (add_event (Log WARN (MsgRestarting failure)) st).
Proof.
  intros Hr Hn. unfold handle_errors_with, bind, log, emit. rewrite Hr.
  cbn [_node_learning_task add_event]. rewrite Hn. reflexivity.
Qed.

Lemma handle_errors_node_stopped failure st :
  _restart_on_error st = true ->
  running (_node_learning_task st) = false ->
  _handle_errors failure st = start (add_event (Log WARN (MsgRestarting failure)) st).
Proof. apply handle_errors_with_node_stopped. Qed.

Lemma handle_errors_no_restart failure st :
  _restart_on_error st = false ->
  _handle_errors failure st = (Ok tt, add_event (Log CRITICAL (MsgUnhandled failure)) st).
Proof.
  intros Hr. unfold _handle_errors, handle_errors_with, log, emit. rewrite Hr.
  reflexivity.
Qed.

Lemma start_when_running st :
  is_running st = true -> start st = (Ok tt, add_event Call_start st).
Proof. rewrite start_is_start_at. apply start_at_running. Qed.

(** [start] when both first cycles return: the state the contract cycle
    left, with both errbacks attached. *)
Lemma start_at_first_cycles_return depth st st_n st_c :
  running (_node_learning_task st) = false ->
  running (_contract_learning_task st) = false ->
  2 <= _refresh_rate st ->
  _learn_about_nodes (armed NodeTask (_refresh_rate st) (entered st)) = (Ok tt, st_n) ->
  _learn_about_contracts (armed ContractTask (_refresh_rate st - 2) st_n) = (Ok tt, st_c) ->
  start_at (S depth) st = (Ok tt, attached ContractTask (attached NodeTask st_c)) /\
  _node_learning_task st_c =
    {| running := true; interval := Some (_refresh_rate st);
       run_at_start := true; errback := false |} /\
  _contract_learning_task st_c =
    {| running := true; interval := Some (_refresh_rate st - 2);
       run_at_start := true; errback := false |} /\
  _client st_c = _client (entered st) /\
  exists node_events,
    start_calls node_events = 0%nat /\
    events st_n =
      events (entered st) ++
      [Call_task_start NodeTask (_refresh_rate st) true] ++ node_events /\
    events st_c =
      events st_n ++ [Call_task_start ContractTask (_refresh_rate st - 2) true].
Proof.
  intros Hn Hc Hr Hnodes Hcontracts.
  destruct (entered_spec st) as (En & Ec & Er & _ & _ & _ & _ & _ & _).
  destruct (learn_about_nodes_frame _ _ _ Hnodes)
    as (N1 & N2 & N3 & N4 & N5 & nevs & N6 & N7).
  destruct (learn_about_contracts_frame _ _ _ Hcontracts)
    as (K1 & K2 & K3 & K4 & K5 & kevs & K6 & K7).
  assert (Kev : events st_c = events (armed ContractTask (_refresh_rate st - 2) st_n)).
  { revert Hcontracts. unfold _learn_about_contracts, bind.
    destruct (token_counter_of period_range ∅ _) as [[tc | e] s1] eqn:E;
      destruct (only_world_token_counter_of _ _ _ _ _ E) as (w & ->);
      intros H; apply pair_equal_spec in H; destruct H as [H <-];
      [reflexivity | discriminate H]. }
  split.
  - rewrite start_at_stopped by (unfold is_running; rewrite Hn; reflexivity).
    unfold bind.
    rewrite LoopingCall_start_now
      by first [lia | cbn [task]; rewrite En; exact Hn].
    cbn [task_body]. rewrite Hnodes.
    rewrite LoopingCall_start_now
      by first [lia | cbn [task]; rewrite N5; cbn; rewrite Ec; exact Hc].
    cbn [task_body]. rewrite Hcontracts. reflexivity.
  - cbn in K4, K5, N4, N5, K1, N1, N6. rewrite K4, N4, K5, K1, N1.
    repeat split.
    exists nevs. split; [exact N7 |]. split.
    + rewrite N6, <- app_assoc. reflexivity.
    + rewrite Kev. reflexivity.
Qed.

(** C9, as the code has it.  From a state where neither task runs and
    the refresh rate is at least the 2-second offset, [start] makes sure
    a client is held (the old one, or a new one when there was none) and
    starts the node task at the refresh rate and then the contract task
    at the refresh rate minus 2, both with [now=True]: each runs its
    first cycle inside [start], the node cycle first.  When both first
    cycles return, [start] returns with both tasks running at these
    intervals and the errback attached to both; the world, the store and
    the snapshot are as the first cycles left them.  When both tasks run
    already, [start] changes nothing.  The bound on nested calls plays
    no part. *)
Theorem start_begins_both_tasks st st_n st_c :
  (running (_node_learning_task st) = false ->
   running (_contract_learning_task st) = false ->
   2 <= _refresh_rate st ->
   _learn_about_nodes (armed NodeTask (_refresh_rate st) (entered st)) = (Ok tt, st_n) ->
   _learn_about_contracts (armed ContractTask (_refresh_rate st - 2) st_n) = (Ok tt, st_c) ->
   exists st',
     start st = (Ok tt, st') /\
     (forall depth, start_at (S depth) st = (Ok tt, st')) /\
     _client st' =
       match _client st with
       | Some c => Some c
       | None => Some {| host := "localhost"; port := 8086; database := DB_NAME |}
       end /\
     _node_learning_task st' = started (_refresh_rate st) /\
     _contract_learning_task st' = started (_refresh_rate st - 2) /\
     is_running st' = true /\
     (exists node_events,
        start_calls node_events = 0%nat /\
        events st_n =
          events st ++ [Call_start; Log INFO MsgStarting] ++
          match _client st with
          | Some _ => []
          | None => [ClientOpened "localhost" 8086 DB_NAME]
          end ++
          [Call_task_start NodeTask (_refresh_rate st) true] ++ node_events /\
        events st' =
          events st_n ++ [Call_task_start ContractTask (_refresh_rate st - 2) true]) /\
     world st' = world st_c /\ influx st' = influx st_c /\
     snapshot st' = snapshot st_c) /\
  (is_running st = true -> start st = (Ok tt, add_event Call_start st)).
Proof.
  split; [| apply start_when_running].
  intros Hn Hc Hr Hnodes Hcontracts.
  exists (attached ContractTask (attached NodeTask st_c)).
  destruct (entered_spec st) as (_ & _ & _ & _ & _ & _ & _ & Ecl & Eev).
  split.
  { rewrite start_is_start_at.
    apply (start_at_first_cycles_return 999 st st_n st_c Hn Hc Hr Hnodes Hcontracts). }
  split.
  { intros depth.
    apply (start_at_first_cycles_return depth st st_n st_c Hn Hc Hr Hnodes Hcontracts). }
  destruct (start_at_first_cycles_return 0 st st_n st_c Hn Hc Hr Hnodes Hcontracts)
    as (_ & Tn & Tc & Hcl & nevs & Hz & Hevn & Hevc).
  unfold attached, is_running, snapshot, started.
  cbn [task set_task _client _node_learning_task _contract_learning_task
       running interval run_at_start errback events world influx __snapshot].
  rewrite Tn, Tc, Hcl, Ecl. cbn [running interval run_at_start andb].
  repeat split.
  exists nevs. split; [exact Hz |]. split; [| exact Hevc].
  rewrite Hevn, Eev, <- !app_assoc. reflexivity.
Qed.

(** C10. [stop] leaves the snapshot as it is, whatever the state; and
    a running crawler that holds a client is stopped normally: both
    tasks halted, the client closed and cleared, the snapshot the one
    computed before. *)
Theorem stop_keeps_snapshot st :
  snapshot (snd (stop st)) = snapshot st /\
  (forall c,
     is_running st = true -> _client st = Some c ->
     exists st',
       stop st = (Ok tt, st') /\
       running (_node_learning_task st') = false /\
       running (_contract_learning_task st') = false /\
       _client st' = None /\
       events st' =
         events st ++ [Log INFO MsgStopping; ClientClosed;
                       Call_task_stop NodeTask; Call_task_stop ContractTask] /\
       snapshot st' = snapshot st).
Proof.
  split.
  - cbv [stop bind emit log the_client LoopingCall_stop is_running snapshot].
    crunch; reflexivity.
  - intros c Hrun Hc. unfold is_running in Hrun.
    apply andb_true_iff in Hrun. destruct Hrun as [Hn Hk].
    eexists. split.
    + cbv [stop bind emit log the_client LoopingCall_stop is_running].
      rewrite Hn, Hk. cbn [andb].
      cbn [_node_learning_task _contract_learning_task _client
           add_event set_client set_task task running].
      rewrite Hc.
      cbn [_node_learning_task _contract_learning_task _client
           add_event set_client set_task task running].
      rewrite Hn.
      cbn [_node_learning_task _contract_learning_task _client
           add_event set_client set_task task running].
      rewrite Hk. reflexivity.
    + cbn. rewrite <- !app_assoc. repeat split; reflexivity.
Qed.

End Lifecycle.

(** C3 on the small network.  The chain stops answering while both
    tasks run under [restart_on_error]: the contract task fails at its
    boundary, [_handle_errors] logs that it restarts the crawler and,
    finding the node task running, never enters [start].  The contract
    task stays stopped and the crawler reports itself not running. *)
Theorem contract_failure_is_not_restarted :
  fst (@LoopingCall_call demo ContractTask (demo_running 1000 (demo_store Healthy)))
    = Ok tt /\
  events (snd (@LoopingCall_call demo ContractTask (demo_running 1000 (demo_store Healthy))))
    = [Log WARN (MsgRestarting (CollaboratorError "chain unreachable"))] /\
  start_calls
    (events (snd (@LoopingCall_call demo ContractTask
                    (demo_running 1000 (demo_store Healthy))))) = 0%nat /\
  running (_contract_learning_task
             (snd (@LoopingCall_call demo ContractTask
                     (demo_running 1000 (demo_store Healthy))))) = false /\
  running (_node_learning_task
             (snd (@LoopingCall_call demo ContractTask
                     (demo_running 1000 (demo_store Healthy))))) = true /\
  is_running (snd (@LoopingCall_call demo ContractTask
                     (demo_running 1000 (demo_store Healthy)))) = false.
Proof. repeat split; vm_compute; reflexivity. Qed.

(** The other half of the same policy: when the node task fails, the
    one [start] it triggers runs the node cycle again and then trips
    twisted's assertion on the contract task, which never stopped; the
    errbacks are not attached again. *)
Lemma node_failure_restart_trips_assertion :
  fst (@LoopingCall_call demo NodeTask (demo_running 500 (demo_store Healthy)))
    = Raise (AssertionError "Tried to start an already running LoopingCall.") /\
  start_calls
    (events (snd (@LoopingCall_call demo NodeTask
                    (demo_running 500 (demo_store Healthy))))) = 1%nat /\
  errback (_node_learning_task
             (snd (@LoopingCall_call demo NodeTask
                     (demo_running 500 (demo_store Healthy))))) = false.
Proof. repeat split; vm_compute; reflexivity. Qed.

(** C9 as stated fails on two kinds of input.  With a refresh rate
    below the offset the contract interval is negative and twisted
    refuses it after the node task has started; with exactly one task
    running the crawler is "not running" and [start] trips twisted's
    assertion. *)
Lemma start_counterexample :
  (is_running (demo_fresh 0 (demo_store Healthy) 1) = false /\
   fst (@start demo (demo_fresh 0 (demo_store Healthy) 1))
     = Raise (ValueError "interval must be >= 0") /\
   running (_contract_learning_task
              (snd (@start demo (demo_fresh 0 (demo_store Healthy) 1)))) = false) /\
  (is_running (demo_contract_down 0) = false /\
   fst (@start demo (demo_contract_down 0))
     = Raise (AssertionError "Tried to start an already running LoopingCall.") /\
   running (_contract_learning_task (snd (@start demo (demo_contract_down 0)))) = false).
Proof. repeat split; vm_compute; reflexivity. Qed.

(** C9 on the small network: a fresh crawler at the default rate.  The
    three known stakers are sampled and written and the snapshot is
    computed before [start] returns. *)
Lemma start_witness :
  exists st',
    @start demo (demo_fresh 0 (demo_store Healthy) 60) = (Ok tt, st') /\
    _node_learning_task st' = started 60 /\
    _contract_learning_task st' = started 58 /\
    length (written_batches (events st')) = 1%nat.
Proof.
  pose (s := demo_fresh 0 (demo_store Healthy) 60).
  pose (st_n := snd (@_learn_about_nodes demo
                       (armed NodeTask (_refresh_rate s) (entered s)))).
  pose (st_c := snd (@_learn_about_contracts demo
                       (armed ContractTask (_refresh_rate s - 2) st_n))).
  assert (Hn : @_learn_about_nodes demo (armed NodeTask (_refresh_rate s) (entered s)) =
               (Ok tt, st_n)) by (vm_compute; reflexivity).
  assert (Hc : @_learn_about_contracts demo
                 (armed ContractTask (_refresh_rate s - 2) st_n) = (Ok tt, st_c))
    by (vm_compute; reflexivity).
  destruct (@start_begins_both_tasks demo s st_n st_c) as [H _].
  destruct (H eq_refl eq_refl ltac:(vm_compute; discriminate) Hn Hc)
    as (st' & Hs & _ & _ & Htn & Htc & _ & (nevs & _ & _ & Hev) & _).
  exists st'. split; [exact Hs |]. split; [exact Htn |]. split; [exact Htc |].
  rewrite Hev. vm_compute. reflexivity.
Defined.

(** C10 on the small network: the snapshot survives the stop. *)
Lemma stop_witness :
  exists st',
    @stop demo (demo_running 7 (demo_store Healthy)) = (Ok tt, st') /\
    _client st' = None /\
    snapshot st' = {[ "future_locked_tokens" := {[ 1 := 7000 ]} ]}.
Proof.
  destruct (@stop_keeps_snapshot demo (demo_running 7 (demo_store Healthy)))
    as [_ H].
  destruct (H demo_client eq_refl eq_refl) as (st' & Hs & _ & _ & Hc & _ & Hsnap).
  exists st'. split; [exact Hs | split; [exact Hc | exact Hsnap]].
Defined.

Section ContractCycle.
Context {C : Collaborators}.

Lemma ask_all_answers days :
  forall w vs w', ask_all w days = (Ok vs, w') -> answers w days vs w'.
Proof.
  induction days as [| day rest IH]; intros w vs w' H; simpl in H.
  - inversion H; subst. constructor.
  - destruct (get_all_locked_tokens day w) as [[v | e] w1] eqn:E; [| discriminate H].
    destruct (ask_all w1 rest) as [[vs' | e] w2] eqn:E'; [| discriminate H].
    inversion H; subst. econstructor; [exact E | apply IH; exact E'].
Qed.

Lemma answers_length w days vs w' :
  answers w days vs w' -> length vs = length days.
Proof. induction 1; simpl; congruence. Qed.

Lemma Ok_inj {A : Type} (a b : A) : Ok a = Ok b -> a = b.
Proof. intros H. inversion H. reflexivity. Qed.

Lemma set_world_same (st : State) : set_world (world st) st = st.
Proof. destruct st; reflexivity. Qed.

Lemma token_counter_of_answers w days vs w' :
  answers w days vs w' ->
  forall acc st, world st = w ->
    token_counter_of days acc st = (Ok (fill days vs acc), set_world w' st).
Proof.
  induction 1 as [w | w day v w1 days vs w2 Hget _ IH]; intros acc st Hw; simpl.
  - subst w. rewrite set_world_same. reflexivity.
  - unfold bind, ask. rewrite Hw, Hget.
    rewrite (IH (<[day := v]> acc) (set_world w1 st) eq_refl). reflexivity.
Qed.

Lemma fill_lookup_other days :
  forall vs acc p, p ∉ days -> fill days vs acc !! p = acc !! p.
Proof.
  induction days as [| d ds IH]; intros vs acc p Hp; simpl; [reflexivity |].
  destruct vs as [| v vs']; [reflexivity |].
  apply not_elem_of_cons in Hp. destruct Hp as [Hne Hp].
  rewrite (IH _ _ _ Hp). apply lookup_insert_ne. congruence.
Qed.

Lemma fill_lookup days :
  forall vs acc (i : nat) p v,
    NoDup days ->
    days !! i = Some p -> vs !! i = Some v ->
    fill days vs acc !! p = Some v.
Proof.
  induction days as [| d ds IH]; intros vs acc i p v Hnd Hd Hv; [discriminate Hd |].
  destruct vs as [| v0 vs']; [discriminate Hv |].
  apply NoDup_cons in Hnd. destruct Hnd as [Hnotin Hnd].
  destruct i as [| j]; simpl in *.
  - inversion Hd; inversion Hv; subst.
    rewrite (fill_lookup_other _ _ _ _ Hnotin). apply lookup_insert_eq.
  - eapply IH; eassumption.
Qed.

Lemma fill_is_Some days :
  forall vs acc p,
    length vs = length days ->
    is_Some (fill days vs acc !! p) <-> p ∈ days \/ is_Some (acc !! p).
Proof.
  induction days as [| d ds IH]; intros vs acc p Hlen; simpl.
  - split; [intros H; right; exact H | intros [H | H]; [inversion H | exact H]].
  - destruct vs as [| v vs']; [discriminate Hlen |].
    simpl in Hlen. rewrite IH by congruence.
    rewrite elem_of_cons.
    destruct (decide (p = d)) as [-> | Hne].
    + rewrite lookup_insert_eq. split; [intros _; left; left; reflexivity |].
      intros _. right. eexists. reflexivity.
    + rewrite lookup_insert_ne by congruence. tauto.
Qed.

Lemma steps_Stored n st : contract_steps n Stored st = (Stored, st).
Proof. induction n as [| n IH]; simpl; [reflexivity | exact IH]. Qed.

Lemma steps_Aborted n e st : contract_steps n (Aborted e) st = (Aborted e, st).
Proof. induction n as [| n IH]; simpl; [reflexivity | exact IH]. Qed.

(** Along the steps of a cycle the published snapshot is the prior one
    until the final assignment, which stores the whole new dict. *)
Lemma steps_snapshot n :
  forall days acc st pc st_n,
    contract_steps n (Building days acc) st = (pc, st_n) ->
    (snapshot st_n = snapshot st /\ pc <> Stored) \/
    (pc = Stored /\
     exists token_counter s1,
       token_counter_of days acc st = (Ok token_counter, s1) /\
       st_n = set_snapshot
                (<["future_locked_tokens" := token_counter]> (__snapshot s1)) s1).
Proof.
  induction n as [| n IH]; intros days acc st pc st_n H; simpl in H.
  - inversion H; subst. left. split; [reflexivity | discriminate].
  - destruct days as [| day rest]; simpl in H.
    + rewrite steps_Stored in H. inversion H; subst. right.
      split; [reflexivity |]. exists acc, st. split; reflexivity.
    + destruct (ask (get_all_locked_tokens day) st) as [[v | e] st1] eqn:E.
      * pose proof E as E'. apply ask_inv in E'. destruct E' as (w1 & _ & ->).
        apply IH in H. destruct H as [[Hs Hpc] | (-> & tc & s1 & Ht & ->)].
        -- left. split; [exact Hs | exact Hpc].
        -- right. split; [reflexivity |]. exists tc, s1. split; [| reflexivity].
           simpl. rewrite (bind_Ok_eq _ _ _ _ _ E). exact Ht.
      * rewrite steps_Aborted in H. inversion H; subst.
        apply ask_inv in E. destruct E as (w1 & _ & ->).
        left. split; [reflexivity | discriminate].
Qed.

(** A cycle in which a collaborator call raises leaves the snapshot. *)
Lemma contract_failure_keeps_snapshot st e st' :
  _learn_about_contracts st = (Raise e, st') -> snapshot st' = snapshot st.
Proof.
  unfold _learn_about_contracts. intros H.
  apply bind_Raise_inv in H. destruct H as [H | (tc & s1 & _ & H)]; [| discriminate H].
  destruct (only_world_token_counter_of _ _ _ _ _ H) as (w & ->). reflexivity.
Qed.

(** C6. When the collaborator answers the 365 calls, for the periods 1
    to 365 in this order, the cycle returns normally and the snapshot's
    entry is replaced by a dict whose keys are exactly 1..365, each with
    the answer given for it.  Taken step by step, the cycle shows a
    reader of [snapshot] the prior mapping or this new one, nothing in
    between. *)
Theorem contract_cycle_stores_complete_snapshot st vs w' :
  answers (world st) period_range vs w' ->
  exists token_counter,
    _learn_about_contracts st =
      (Ok tt,
       set_snapshot (<["future_locked_tokens" := token_counter]> (__snapshot st))
         (set_world w' st)) /\
    (forall p, is_Some (token_counter !! p) <-> 1 <= p <= 365) /\
    (forall (i : nat) p v,
       period_range !! i = Some p -> vs !! i = Some v ->
       token_counter !! p = Some v) /\
    (forall n pc st_n,
       contract_steps n (Building period_range ∅) st = (pc, st_n) ->
       snapshot st_n = snapshot st \/
       snapshot st_n = <["future_locked_tokens" := token_counter]> (snapshot st)).
Proof.
  intros Hans.
  pose proof (token_counter_of_answers _ _ _ _ Hans ∅ st eq_refl) as Hrun.
  exists (fill period_range vs ∅). split; [| split; [| split]].
  - unfold _learn_about_contracts. rewrite (bind_Ok_eq _ _ _ _ _ Hrun). reflexivity.
  - intros p. rewrite fill_is_Some by (eapply answers_length; exact Hans).
    unfold period_range. rewrite elem_of_seqZ, lookup_empty. split.
    + intros [H | H]; [lia | inversion H; discriminate].
    + intros H. left. lia.
  - intros i p v Hp Hv. eapply fill_lookup; [apply NoDup_seqZ | exact Hp | exact Hv].
  - intros n pc st_n Hsteps. apply steps_snapshot in Hsteps.
    destruct Hsteps as [[Hs _] | (_ & tc & s1 & Ht & ->)]; [left; exact Hs |].
    right. rewrite Hrun in Ht. apply pair_equal_spec in Ht. destruct Ht as [Htc Hs1].
    apply Ok_inj in Htc. subst tc s1. reflexivity.
Qed.

End ContractCycle.

(** C6 on the small network: the chain answers all 365 calls. *)
Lemma contract_cycle_witness :
  exists token_counter st',
    @_learn_about_contracts demo (demo_fresh 0 (demo_store Healthy) 60) = (Ok tt, st') /\
    snapshot st' !! "future_locked_tokens" = Some token_counter /\
    token_counter !! 365 = Some 365000.
Proof.
  assert (H : @answers demo 0 period_range
                (map (fun day => day * 1000) period_range) 365)
    by (apply ask_all_answers; vm_compute; reflexivity).
  destruct (@contract_cycle_stores_complete_snapshot demo
              (demo_fresh 0 (demo_store Healthy) 60) _ _ H)
    as (tc & Hrun & _ & Hval & _).
  exists tc. eexists. split; [exact Hrun |]. split.
  - apply lookup_insert_eq.
  - apply (Hval 364%nat); vm_compute; reflexivity.
Defined.

Section SchemaBootstrap.
Context {C : Collaborators}.

Lemma creations_app evs evs' :
  creations (evs ++ evs') = creations evs ++ creations evs'.
Proof.
  induction evs as [| e rest IH]; simpl; [reflexivity |].
  destruct e; simpl; rewrite ?IH; reflexivity.
Qed.

(** [len(found_db) == 0] says that no database has the name. *)
Lemma found_db_empty name dbs :
  Nat.eqb (length (List.filter (fun db => String.eqb db name) (map db_name dbs))) 0 =
  negb (existsb (fun d => String.eqb (db_name d) name) dbs).
Proof.
  induction dbs as [| d rest IH]; simpl; [reflexivity |].
  destruct (String.eqb (db_name d) name); simpl; [reflexivity | exact IH].
Qed.

Lemma existsb_snoc {A : Type} (f : A -> bool) l x :
  existsb f (l ++ [x]) = existsb f l || f x.
Proof. rewrite existsb_app. simpl. rewrite orb_false_r. reflexivity. Qed.

Lemma map_untouched name (g : Database -> Database) dbs :
  existsb (fun d => String.eqb (db_name d) name) dbs = false ->
  map (fun d => if String.eqb (db_name d) name then g d else d) dbs = dbs.
Proof.
  induction dbs as [| d rest IH]; simpl; [reflexivity |].
  intros H. apply orb_false_iff in H. destruct H as [Hd Hrest].
  rewrite Hd, (IH Hrest). reflexivity.
Qed.

Lemma no_policy_yet name pname dbs :
  existsb (fun d => String.eqb (db_name d) name) dbs = false ->
  existsb (fun d => String.eqb (db_name d) name && has_policy pname d) dbs = false.
Proof.
  induction dbs as [| d rest IH]; simpl; [reflexivity |].
  intros H. apply orb_false_iff in H. destruct H as [Hd Hrest].
  rewrite Hd, (IH Hrest). reflexivity.
Qed.

(** The run on a store that has the database. *)
Lemma ensure_existing st c :
  _client st = Some c ->
  reachable (influx st) ->
  has_database DB_NAME (influx st) = true ->
  _ensure_db_exists st =
    (Ok tt, add_event (Log INFO (MsgDatabaseExists DB_NAME))
              (add_event Call_get_list_database st)).
Proof.
  intros Hc Hr Hdb.
  cbv [_ensure_db_exists bind the_client emit log request influx_get_list_database].
  rewrite Hc. cbn [influx add_event].
  destruct (health (influx st)) eqn:Eh; [| | exfalso; exact (Hr _ Eh)];
    rewrite found_db_empty; unfold has_database in Hdb; rewrite Hdb; reflexivity.
Qed.

(** The run on a reachable store that lacks the database. *)
Lemma ensure_absent st c :
  _client st = Some c ->
  reachable (influx st) ->
  has_database DB_NAME (influx st) = false ->
  _ensure_db_exists st =
    (Ok tt,
     set_influx (bootstrapped (influx st))
       (add_event (Call_create_retention_policy DB_RETENTION_POLICY_NAME
                     DB_RETENTION_POLICY_PERIOD DB_RETENTION_POLICY_REPLICATION
                     DB_NAME true)
          (add_event (Call_create_database DB_NAME)
             (add_event (Log INFO (MsgDatabaseNotFound DB_NAME))
                (add_event Call_get_list_database st))))).
Proof.
  intros Hc Hr Hdb.
  cbv [_ensure_db_exists bind the_client emit log request influx_get_list_database
       influx_create_database influx_create_retention_policy].
  rewrite Hc. cbn [influx add_event set_influx _client health databases].
  pose proof Hdb as Hdb'. unfold has_database in Hdb'.
  destruct (health (influx st)) eqn:Eh; [| | exfalso; exact (Hr _ Eh)];
    rewrite found_db_empty, Hdb';
    repeat (cbn [influx add_event set_influx _client health databases negb
                 db_name orb andb has_policy db_policies existsb map];
            first [ rewrite Hc | rewrite Eh | rewrite Hdb
                  | rewrite (String.eqb_refl DB_NAME)
                  | rewrite existsb_snoc
                  | rewrite Hdb'
                  | rewrite (no_policy_yet _ _ _ Hdb')
                  | rewrite map_app
                  | rewrite (map_untouched _ _ _ Hdb')
                  | progress unfold has_database ]);
    unfold bootstrapped; rewrite Eh; reflexivity.
Qed.

(** A successful run leaves a store on which the next run finds the
    database. *)
Lemma ensure_Ok_then_existing st st1 :
  _ensure_db_exists st = (Ok tt, st1) ->
  exists c,
    _client st1 = Some c /\ reachable (influx st1) /\
    has_database DB_NAME (influx st1) = true.
Proof.
  intros H.
  destruct (_client st) as [c |] eqn:Hc.
  2:{ cbv [_ensure_db_exists bind the_client] in H. rewrite Hc in H. discriminate H. }
  assert (Hr : reachable (influx st)).
  { intros e Eh.
    cbv [_ensure_db_exists bind the_client emit request influx_get_list_database] in H.
    rewrite Hc in H. cbn [influx add_event] in H. rewrite Eh in H. discriminate H. }
  exists c.
  destruct (has_database DB_NAME (influx st)) eqn:Hdb.
  - rewrite (ensure_existing _ _ Hc Hr Hdb) in H.
    apply pair_equal_spec in H. destruct H as [_ <-].
    repeat split; assumption.
  - rewrite (ensure_absent _ _ Hc Hr Hdb) in H.
    apply pair_equal_spec in H. destruct H as [_ <-].
    cbn [_client influx set_influx add_event]. repeat split.
    + exact Hc.
    + intros e. unfold bootstrapped. cbn [health]. apply Hr.
    + unfold has_database, bootstrapped. cbn [databases].
      rewrite existsb_snoc. cbn [db_name]. rewrite (String.eqb_refl DB_NAME).
      apply orb_true_r.
Qed.

(** An existing database is left alone, whatever else the state is. *)
Lemma ensure_existing_untouched st :
  has_database DB_NAME (influx st) = true ->
  influx (snd (_ensure_db_exists st)) = influx st /\
  creations (events (snd (_ensure_db_exists st))) = creations (events st).
Proof.
  intros Hdb.
  destruct (_client st) as [c |] eqn:Hc.
  - destruct (health (influx st)) eqn:Eh.
    + rewrite (ensure_existing st c Hc) by (auto; intros e; congruence).
      cbn [snd influx add_event events]. rewrite !creations_app.
      cbn. rewrite !app_nil_r. split; reflexivity.
    + rewrite (ensure_existing st c Hc) by (auto; intros e; congruence).
      cbn [snd influx add_event events]. rewrite !creations_app.
      cbn. rewrite !app_nil_r. split; reflexivity.
    + cbv [_ensure_db_exists bind the_client emit request influx_get_list_database].
      rewrite Hc. cbn [influx add_event]. rewrite Eh.
      cbn [snd influx set_influx add_event events]. rewrite creations_app.
      cbn. rewrite app_nil_r. split; reflexivity.
  - cbv [_ensure_db_exists bind the_client]. rewrite Hc. split; reflexivity.
Qed.

(** Whatever the first run did, the next run leaves the store alone. *)
Lemma ensure_second_run st r st1 :
  _ensure_db_exists st = (r, st1) ->
  influx (snd (_ensure_db_exists st1)) = influx st1 /\
  creations (events (snd (_ensure_db_exists st1))) = creations (events st1).
Proof.
  intros H. destruct r as [[] | e].
  - destruct (ensure_Ok_then_existing _ _ H) as (c & _ & _ & Hdb).
    apply ensure_existing_untouched. exact Hdb.
  - destruct (_client st) as [c |] eqn:Hc.
    + destruct (health (influx st)) eqn:Eh.
      1,2: destruct (has_database DB_NAME (influx st)) eqn:Hdb;
        [ rewrite (ensure_existing st c Hc) in H by (auto; intros e'; congruence)
        | rewrite (ensure_absent st c Hc) in H by (auto; intros e'; congruence) ];
        discriminate H.
      cbv [_ensure_db_exists bind the_client emit request influx_get_list_database] in H.
      rewrite Hc in H. cbn [influx add_event] in H. rewrite Eh in H.
      apply pair_equal_spec in H. destruct H as [_ <-].
      cbv [_ensure_db_exists bind the_client emit request influx_get_list_database].
      cbn [_client influx add_event set_influx]. rewrite Hc.
      cbn [_client influx add_event set_influx]. rewrite Eh.
      cbn [snd influx set_influx add_event events]. rewrite !creations_app.
      cbn. rewrite !app_nil_r. split; reflexivity.
    + cbv [_ensure_db_exists bind the_client] in H. rewrite Hc in H.
      apply pair_equal_spec in H. destruct H as [_ <-].
      cbv [_ensure_db_exists bind the_client]. rewrite Hc. split; reflexivity.
Qed.

(** C7. Schema bootstrap is idempotent.  On a store that has the
    database [network] the run leaves the store as it is and asks for no
    database or retention policy to be created.  Whatever a first run
    did, a second run leaves the store as it is and asks for nothing to
    be created, and it returns normally when the first did.  On a
    reachable store that lacks the database the run creates it and then
    the retention policy [network_info_retention] (duration [5w],
    replication [1], default) on it. *)
Theorem schema_bootstrap_idempotent st :
  (has_database DB_NAME (influx st) = true ->
   influx (snd (_ensure_db_exists st)) = influx st /\
   creations (events (snd (_ensure_db_exists st))) = creations (events st)) /\
  (forall r st1,
     _ensure_db_exists st = (r, st1) ->
     influx (snd (_ensure_db_exists st1)) = influx st1 /\
     creations (events (snd (_ensure_db_exists st1))) = creations (events st1) /\
     (r = Ok tt -> fst (_ensure_db_exists st1) = Ok tt)) /\
  (forall c,
     _client st = Some c -> reachable (influx st) ->
     has_database DB_NAME (influx st) = false ->
     exists st1,
       _ensure_db_exists st = (Ok tt, st1) /\
       creations (events st1) =
         creations (events st) ++
         [Call_create_database "network";
          Call_create_retention_policy "network_info_retention" "5w" "1" "network" true] /\
       databases (influx st1) =
         databases (influx st) ++
         [{| db_name := "network";
             db_policies :=
               [{| rp_name := "network_info_retention"; rp_duration := "5w";
                   rp_replication := "1"; rp_default := true |}];
             db_points := [] |}]).
Proof.
  split; [apply ensure_existing_untouched | split].
  - intros r st1 H1.
    destruct (ensure_second_run _ _ _ H1) as [Hi Hc]. split; [exact Hi |].
    split; [exact Hc |]. intros ->.
    destruct (ensure_Ok_then_existing _ _ H1) as (c & Hcl & Hr & Hdb).
    rewrite (ensure_existing _ _ Hcl Hr Hdb). reflexivity.
  - intros c Hc Hr Hdb. eexists. split; [apply (ensure_absent _ _ Hc Hr Hdb) |].
    cbn [influx set_influx add_event events]. rewrite !creations_app. cbn.
    rewrite !app_nil_r, <- !app_assoc. split; reflexivity.
Qed.

End SchemaBootstrap.

(** C7 on the small network: bootstrap of an empty store, twice. *)
Lemma schema_bootstrap_witness :
  exists st1,
    @_ensure_db_exists demo (demo_fresh 0 demo_empty_store 60) = (Ok tt, st1) /\
    fst (@_ensure_db_exists demo st1) = Ok tt /\
    influx (snd (@_ensure_db_exists demo st1)) = influx st1 /\
    map db_name (databases (influx st1)) = ["_internal"; "network"].
Proof.
  destruct (@schema_bootstrap_idempotent demo (demo_fresh 0 demo_empty_store 60))
    as (_ & Htwice & Habsent).
  destruct (Habsent demo_client eq_refl ltac:(intros e; discriminate) eq_refl)
    as (st1 & H1 & _ & Hdbs).
  destruct (Htwice _ st1 H1) as (Hsame & _ & Hok).
  exists st1. split; [exact H1 |]. split; [exact (Hok eq_refl) |].
  split; [exact Hsame |]. rewrite Hdbs. reflexivity.
Defined.

Section History.
Context {C : Collaborators}.

Lemma truthy_nonnull_nonzero v : truthy v = true <-> nonnull_nonzero v.
Proof.
  unfold nonnull_nonzero. destruct v as [| z | f]; simpl.
  - split; [discriminate | intros (H & _); congruence].
  - split.
    + intros H. apply negb_true_iff, Z.eqb_neq in H.
      repeat split; try discriminate. congruence.
    + intros (_ & H & _). apply negb_true_iff, Z.eqb_neq. congruence.
  - split.
    + intros H. apply negb_true_iff in H.
      repeat split; try discriminate. intros f' Hf. congruence.
    + intros (_ & _ & H). rewrite (H f eq_refl). reflexivity.
Qed.

Lemma od_setitem_keys {V : Type} k (v : V) d day :
  In day (map fst (od_setitem k v d)) <-> day = k \/ In day (map fst d).
Proof.
  induction d as [| [k' v'] d' IH]; simpl.
  - intuition congruence.
  - destruct (k' =? k) eqn:E; simpl.
    + apply Z.eqb_eq in E. subst k'. intuition congruence.
    + rewrite IH. intuition congruence.
Qed.

Lemma od_setitem_entries {V : Type} k (v : V) d day x :
  In (day, x) (od_setitem k v d) -> (day = k /\ x = v) \/ In (day, x) d.
Proof.
  induction d as [| [k' v'] d' IH]; simpl.
  - intros [H | []]. left. split; congruence.
  - destruct (k' =? k) eqn:E; simpl.
    + intros [H | H]; [left; split; congruence | right; right; exact H].
    + intros [H | H]; [right; left; exact H |].
      destruct (IH H) as [H' | H']; [left; exact H' | right; right; exact H'].
Qed.

(** The loop over the rows: it returns when the kept rows parse; the
    keys it adds are the days of the truthy rows, and each entry it
    adds is a truthy row's. *)
Lemma collect_points_spec rows :
  forall d, parses rows ->
  exists series,
    collect_points rows d = Ok series /\
    (forall day,
       In day (map fst series) <->
       In day (map fst d) \/
       exists r, In r rows /\ from_rfc3339 (pt_time r) = Ok day /\
                 truthy (pt_value r) = true) /\
    (forall day v,
       In (day, v) series ->
       In (day, v) d \/
       exists r, In r rows /\ pt_value r = v /\
                 from_rfc3339 (pt_time r) = Ok day /\ truthy v = true).
Proof.
  induction rows as [| r rest IH]; intros d Hp; simpl.
  - exists d. split; [reflexivity |]. split.
    + intros day. split; [intros H; left; exact H |].
      intros [H | (r & [] & _)]. exact H.
    + intros day v H. left. exact H.
  - apply Forall_cons in Hp. destruct Hp as [Hr Hrest].
    destruct (truthy (pt_value r)) eqn:Et.
    + destruct (Hr eq_refl) as (k & Hk). rewrite Hk.
      destruct (IH (od_setitem k (pt_value r) d) Hrest) as (series & Hrun & Hkeys & Hent).
      exists series. split; [exact Hrun |]. split.
      * intros day. rewrite Hkeys, od_setitem_keys. split.
        -- intros [[-> | H] | (r' & Hin & Hday & Ht)].
           ++ right. exists r. repeat split; auto.
           ++ left. exact H.
           ++ right. exists r'. repeat split; auto.
        -- intros [H | (r' & [<- | Hin] & Hday & Ht)].
           ++ left. right. exact H.
           ++ left. left. congruence.
           ++ right. exists r'. repeat split; auto.
      * intros day v H. destruct (Hent _ _ H) as [H' | (r' & Hin & Hv & Hday & Ht)].
        -- apply od_setitem_entries in H'. destruct H' as [[-> ->] | H'].
           ++ right. exists r. repeat split; auto.
           ++ left. exact H'.
        -- right. exists r'. repeat split; auto.
    + destruct (IH d Hrest) as (series & Hrun & Hkeys & Hent).
      exists series. split; [exact Hrun |]. split.
      * intros day. rewrite Hkeys. split.
        -- intros [H | (r' & Hin & Hday & Ht)]; [left; exact H |].
           right. exists r'. repeat split; auto.
        -- intros [H | (r' & [<- | Hin] & Hday & Ht)].
           ++ left. exact H.
           ++ congruence.
           ++ right. exists r'. repeat split; auto.
      * intros day v H. destruct (Hent _ _ H) as [H' | (r' & Hin & Hv & Hday & Ht)].
        -- left. exact H'.
        -- right. exists r'. repeat split; auto.
Qed.

(** The date arithmetic when the whole range is representable. *)
Lemma range_of_ok st days today w :
  utcnow_ordinal (world st) = (today, w) ->
  1 <= days ->
  MINORDINAL <= today - (days - 1) ->
  today + 1 <= MAXORDINAL ->
  range_of days st = (Ok (today - (days - 1), today), set_world w st) /\
  forall st', next_day today st' = (Ok (today + 1), st').
Proof.
  intros Hnow Hdays Hlo Hhi. unfold MINORDINAL, MAXORDINAL in *.
  assert (Hd : timedelta (days - 1) = Ok (days - 1)).
  { unfold timedelta, MAXDELTA. destruct (Z.leb_spec (Z.abs (days - 1)) 999999999); [reflexivity | lia]. }
  assert (Hb : datetime_sub today (days - 1) = Ok (today - (days - 1))).
  { unfold datetime_sub, checked_date, MINORDINAL, MAXORDINAL.
    destruct (Z.leb_spec 1 (today - (days - 1))); [| lia].
    destruct (Z.leb_spec (today - (days - 1)) 3652059); [reflexivity | lia]. }
  assert (He : datetime_add today 1 = Ok (today + 1)).
  { unfold datetime_add, checked_date, MINORDINAL, MAXORDINAL.
    destruct (Z.leb_spec 1 (today + 1)); [| lia].
    destruct (Z.leb_spec (today + 1) 3652059); [reflexivity | lia]. }
  split.
  - unfold range_of, bind, ask, lift. rewrite Hnow, Hd, Hb. reflexivity.
  - intros st'. unfold next_day, bind, lift.
    change (timedelta 1) with (Ok (A := Z) 1). cbv beta iota. rewrite He.
    reflexivity.
Qed.

Lemma append_assoc a b c : (a +:+ b) +:+ c = a +:+ (b +:+ c).
Proof.
  induction a as [| x a' IH]; [reflexivity |].
  rewrite !append_cons, IH. reflexivity.
Qed.

(** The text the code builds is the nested aggregation of the
    specification over the range from [today - (days - 1)] up to, and
    not including, [today + 1]. *)
Lemma locked_tokens_query_is_spec today days :
  locked_tokens_query (today - (days - 1)) (today + 1) =
  spec_render (spec_locked_stake_series today days).
Proof.
  unfold locked_tokens_query, spec_render, spec_render_inner, spec_locked_stake_series.
  cbn [out_aggregate out_field out_inner out_bucket in_tag in_carried in_last_field
       in_alias in_measurement in_from in_until in_bucket fold_right].
  rewrite !append_assoc. reflexivity.
Qed.

(** Both queries, once the dates are computed: one query call, then the
    loop over what the store returned. *)
Lemma locked_tokens_run st days today w :
  utcnow_ordinal (world st) = (today, w) ->
  1 <= days ->
  MINORDINAL <= today - (days - 1) ->
  today + 1 <= MAXORDINAL ->
  get_historical_locked_tokens_over_range days st =
    (match run_query (locked_tokens_query (today - (days - 1)) (today + 1)) (influx st) with
     | Ok rows => collect_points rows []
     | Raise e => Raise e
     end,
     add_event (Call_query (locked_tokens_query (today - (days - 1)) (today + 1)))
       (set_world w st)).
Proof.
  intros Hnow Hdays Hlo Hhi.
  destruct (range_of_ok _ _ _ _ Hnow Hdays Hlo Hhi) as [Hrange Hnext].
  unfold get_historical_locked_tokens_over_range.
  rewrite (bind_Ok_eq _ _ _ _ _ Hrange). cbn [fst snd].
  rewrite (bind_Ok_eq _ _ _ _ _ (Hnext _)).
  unfold query, bind, emit, lift. cbn [influx add_event set_world].
  destruct (run_query _ _); reflexivity.
Qed.

Lemma num_stakers_run st days today w :
  utcnow_ordinal (world st) = (today, w) ->
  1 <= days ->
  MINORDINAL <= today - (days - 1) ->
  today + 1 <= MAXORDINAL ->
  get_historical_num_stakers_over_range days st =
    (match run_query (num_stakers_query (today - (days - 1)) (today + 1)) (influx st) with
     | Ok rows => collect_points rows []
     | Raise e => Raise e
     end,
     add_event (Call_query (num_stakers_query (today - (days - 1)) (today + 1)))
       (set_world w st)).
Proof.
  intros Hnow Hdays Hlo Hhi.
  destruct (range_of_ok _ _ _ _ Hnow Hdays Hlo Hhi) as [Hrange Hnext].
  unfold get_historical_num_stakers_over_range.
  rewrite (bind_Ok_eq _ _ _ _ _ Hrange). cbn [fst snd].
  rewrite (bind_Ok_eq _ _ _ _ _ (Hnext _)).
  unfold query, bind, emit, lift. cbn [influx add_event set_world].
  destruct (run_query _ _); reflexivity.
Qed.

(** What the loop returns for the rows of one query. *)
Lemma series_of_rows rows :
  parses rows ->
  exists series,
    collect_points rows [] = Ok series /\
    (forall day,
       In day (map fst series) <->
       exists r, In r rows /\ from_rfc3339 (pt_time r) = Ok day /\
                 nonnull_nonzero (pt_value r)) /\
    (forall day v,
       In (day, v) series ->
       nonnull_nonzero v /\
       exists r, In r rows /\ pt_value r = v /\ from_rfc3339 (pt_time r) = Ok day).
Proof.
  intros Hp. destruct (collect_points_spec rows [] Hp) as (series & Hrun & Hkeys & Hent).
  exists series. split; [exact Hrun |]. split.
  - intros day. rewrite Hkeys. split.
    + intros [[] | (r & Hin & Hday & Ht)].
      exists r. rewrite <- truthy_nonnull_nonzero. auto.
    + intros (r & Hin & Hday & Ht). right. exists r.
      rewrite truthy_nonnull_nonzero. auto.
  - intros day v H. destruct (Hent _ _ H) as [[] | (r & Hin & Hv & Hday & Ht)].
    split; [apply truthy_nonnull_nonzero; exact Ht |]. exists r. auto.
Qed.

(** C4. Given a representable range, rows returned by the store for
    each query, and times that parse on the rows kept, both historical
    queries return a mapping.  A day is a key of the locked-stake
    mapping exactly when some row of that day has a sum that is neither
    null nor zero, and likewise for the staker counts; every entry's
    value is some row's aggregate for that day and is neither null nor
    zero, so an empty day is absent and never present with 0. *)
Theorem historical_series_omit_empty_days st days today w sums counts :
  utcnow_ordinal (world st) = (today, w) ->
  1 <= days ->
  MINORDINAL <= today - (days - 1) ->
  today + 1 <= MAXORDINAL ->
  run_query (locked_tokens_query (today - (days - 1)) (today + 1)) (influx st) = Ok sums ->
  run_query (num_stakers_query (today - (days - 1)) (today + 1)) (influx st) = Ok counts ->
  parses sums -> parses counts ->
  exists locked stakers st1 st2,
    get_historical_locked_tokens_over_range days st = (Ok locked, st1) /\
    get_historical_num_stakers_over_range days st = (Ok stakers, st2) /\
    (forall day,
       In day (map fst locked) <->
       exists r, In r sums /\ from_rfc3339 (pt_time r) = Ok day /\
                 nonnull_nonzero (pt_value r)) /\
    (forall day,
       In day (map fst stakers) <->
       exists r, In r counts /\ from_rfc3339 (pt_time r) = Ok day /\
                 nonnull_nonzero (pt_value r)) /\
    (forall day v,
       In (day, v) locked ->
       nonnull_nonzero v /\
       exists r, In r sums /\ pt_value r = v /\ from_rfc3339 (pt_time r) = Ok day) /\
    (forall day v,
       In (day, v) stakers ->
       nonnull_nonzero v /\
       exists r, In r counts /\ pt_value r = v /\ from_rfc3339 (pt_time r) = Ok day).
Proof.
  intros Hnow Hdays Hlo Hhi Hsums Hcounts Hps Hpc.
  destruct (series_of_rows sums Hps) as (locked & Hl & Hlk & Hle).
  destruct (series_of_rows counts Hpc) as (stakers & Hs & Hsk & Hse).
  exists locked, stakers. eexists. eexists.
  split; [| split; [| split; [exact Hlk | split; [exact Hsk | split; [exact Hle | exact Hse]]]]].
  - rewrite (locked_tokens_run _ _ _ _ Hnow Hdays Hlo Hhi), Hsums, Hl. reflexivity.
  - rewrite (num_stakers_run _ _ _ _ Hnow Hdays Hlo Hhi), Hcounts, Hs. reflexivity.
Qed.

(** C5, as the code has it.  When the first day of the range is a
    representable date and today is not the last one, the locked-stake
    function issues exactly one query, and its text is the nested
    aggregation of the specification: inside, the last locked stake per
    staker and 1-day bucket over the range from today's midnight minus
    [days - 1] days up to, and not including, today's midnight plus one
    day; outside, the sum per 1-day bucket. *)
Theorem locked_stake_query_range st days today w :
  utcnow_ordinal (world st) = (today, w) ->
  1 <= days ->
  MINORDINAL <= today - (days - 1) ->
  today + 1 <= MAXORDINAL ->
  exists r st1,
    get_historical_locked_tokens_over_range days st = (r, st1) /\
    events st1 =
      events st ++ [Call_query (spec_render (spec_locked_stake_series today days))].
Proof.
  intros Hnow Hdays Hlo Hhi. eexists. eexists.
  split; [apply (locked_tokens_run _ _ _ _ Hnow Hdays Hlo Hhi) |].
  cbn [events add_event set_world]. rewrite locked_tokens_query_is_spec. reflexivity.
Qed.

End History.

(** C4 on the small network: of three days, the days with a null or
    zero aggregate are left out. *)
Lemma historical_series_witness :
  exists st1 st2,
    @get_historical_locked_tokens_over_range demo 7 (demo_fresh 0 (demo_store Healthy) 60)
      = (Ok [(1572566400, PyFloat 150)], st1) /\
    @get_historical_num_stakers_over_range demo 7 (demo_fresh 0 (demo_store Healthy) 60)
      = (Ok [(1572566400, PyInt 2); (1572739200, PyInt 3)], st2).
Proof.
  assert (Hp : forall q, @parses demo (demo_points q)).
  { intros q. unfold demo_points.
    destruct (String.eqb _ _); repeat constructor; intros _; eexists; reflexivity. }
  destruct (@historical_series_omit_empty_days demo
              (demo_fresh 0 (demo_store Healthy) 60) 7 737366 0 _ _
              eq_refl ltac:(lia) ltac:(vm_compute; discriminate)
              ltac:(vm_compute; discriminate) eq_refl eq_refl (Hp _) (Hp _))
    as (locked & stakers & st1 & st2 & H1 & H2 & _).
  exists st1, st2. rewrite H1, H2.
  vm_compute in H1. vm_compute in H2.
  apply pair_equal_spec in H1. destruct H1 as [H1 _].
  apply pair_equal_spec in H2. destruct H2 as [H2 _].
  injection H1 as <-. injection H2 as <-. split; reflexivity.
Defined.

(** C5 as stated fails for a number of days that reaches before the
    first representable date: the date arithmetic raises and no query
    is issued. *)
Lemma locked_stake_query_counterexample :
  1 <= 1000000 /\
  fst (@get_historical_locked_tokens_over_range demo 1000000
         (demo_fresh 0 (demo_store Healthy) 60))
    = Raise (OverflowError "date value out of range") /\
  events (snd (@get_historical_locked_tokens_over_range demo 1000000
                 (demo_fresh 0 (demo_store Healthy) 60))) = [].
Proof. split; [lia | split; vm_compute; reflexivity]. Qed.

(** C5 on the small network: the last seven days. *)
Lemma locked_stake_query_witness :
  exists r st1,
    @get_historical_locked_tokens_over_range demo 7 (demo_fresh 0 (demo_store Healthy) 60)
      = (r, st1) /\
    events st1 =
      [Call_query (@spec_render demo (spec_locked_stake_series 737366 7))].
Proof.
  exact (@locked_stake_query_range demo (demo_fresh 0 (demo_store Healthy) 60)
           7 737366 0 eq_refl ltac:(lia) ltac:(vm_compute; discriminate)
           ltac:(vm_compute; discriminate)).
Defined.

(** * More of the code: properties beyond the claims *)

Section MoreLifecycle.
Context {C : Collaborators}.

(** [stop] on a running crawler that holds a client, as an equation. *)
Lemma stop_running_eq st c :
  is_running st = true ->
  _client st = Some c ->
  stop st =
    (Ok tt,
     set_task ContractTask
       {| running := false; interval := interval (_contract_learning_task st);
          run_at_start := run_at_start (_contract_learning_task st);
          errback := errback (_contract_learning_task st) |}
       (add_event (Call_task_stop ContractTask)
          (set_task NodeTask
             {| running := false; interval := interval (_node_learning_task st);
                run_at_start := run_at_start (_node_learning_task st);
                errback := errback (_node_learning_task st) |}
             (add_event (Call_task_stop NodeTask)
                (set_client None
                   (add_event ClientClosed
                      (add_event (Log INFO MsgStopping) st))))))).
Proof.
  intros Hrun Hc. unfold is_running in Hrun.
  apply andb_true_iff in Hrun. destruct Hrun as [Hn Hk].
  cbv [stop bind emit log the_client LoopingCall_stop is_running].
  rewrite Hn, Hk. cbn [andb].
  cbn [_node_learning_task _contract_learning_task _client
       add_event set_client set_task task running].
  rewrite Hc.
  cbn [_node_learning_task _contract_learning_task _client
       add_event set_client set_task task running].
  rewrite Hn.
  cbn [_node_learning_task _contract_learning_task _client
       add_event set_client set_task task running].
  rewrite Hk. reflexivity.
Qed.

Lemma stop_not_running st : is_running st = false -> stop st = (Ok tt, st).
Proof. intros H. unfold stop. rewrite H. reflexivity. Qed.

(** The node task started with [now=True] from a state where it does
    not run: its first cycle decides whether it runs afterwards. *)
Lemma node_start_now seconds st :
  running (_node_learning_task st) = false -> 0 <= seconds ->
  exists deferred s,
    LoopingCall_start NodeTask seconds true st = (Ok deferred, s) /\
    running (_node_learning_task s) =
      match fst (_learn_about_nodes (armed NodeTask seconds st)) with
      | Ok _ => true
      | Raise _ => false
      end /\
    errback (_node_learning_task s) = false /\
    _contract_learning_task s = _contract_learning_task st /\
    _restart_on_error s = _restart_on_error st /\
    _refresh_rate s = _refresh_rate st /\
    start_calls (events s) = start_calls (events st).
Proof.
  intros Hn Hs.
  rewrite LoopingCall_start_now by assumption. cbn [task_body].
  destruct (_learn_about_nodes (armed NodeTask seconds st)) as [[[] | e] s2] eqn:E;
    destruct (learn_about_nodes_frame _ _ _ E)
      as (_ & F2 & F3 & F4 & F5 & evs & F6 & F7);
    eexists; eexists; (split; [reflexivity |]);
    cbn [fst task set_task halted _node_learning_task _contract_learning_task
         _restart_on_error _refresh_rate running errback events];
    rewrite ?F4, ?F5, ?F3, ?F2, F6, start_calls_app, F7;
    cbn; rewrite start_calls_app; cbn; repeat split; lia.
Qed.

(** [start] when the node task does not run and the contract task does:
    the node cycle runs, then twisted refuses to start the contract
    task. *)
Lemma start_at_contract_running depth st :
  running (_node_learning_task st) = false ->
  running (_contract_learning_task st) = true ->
  0 <= _refresh_rate st ->
  exists s,
    s = add_event (Call_task_start ContractTask (_refresh_rate st - 2) true)
          (snd (LoopingCall_start NodeTask (_refresh_rate st) true (entered st))) /\
    start_at (S depth) st =
      (Raise (AssertionError "Tried to start an already running LoopingCall."), s) /\
    running (_node_learning_task s) =
      match fst (_learn_about_nodes
                   (armed NodeTask (_refresh_rate st) (entered st))) with
      | Ok _ => true
      | Raise _ => false
      end /\
    errback (_node_learning_task s) = false /\
    _contract_learning_task s = _contract_learning_task st /\
    start_calls (events s) = S (start_calls (events st)).
Proof.
  intros Hn Hc Hr.
  destruct (entered_spec st) as (En & Ec & Er & _ & _ & _ & _ & _ & Eev).
  destruct (node_start_now (_refresh_rate st) (entered st))
    as (deferred & s & Hs & S1 & S2 & S3 & _ & _ & S6);
    [rewrite En; exact Hn | exact Hr |].
  eexists. split; [reflexivity |]. rewrite Hs. cbn [snd]. split.
  - rewrite start_at_stopped by (unfold is_running; rewrite Hn; reflexivity).
    unfold bind. rewrite Hs.
    rewrite LoopingCall_start_running
      by (cbn [task]; rewrite S3, Ec; exact Hc).
    reflexivity.
  - cbn [add_event _node_learning_task _contract_learning_task events].
    rewrite S1, S2, S3, Ec, start_calls_app, S6, Eev, start_calls_app.
    destruct (_client st); cbn; repeat split; lia.
Qed.

(** X1. The life cycle composes.  From a state where neither task runs
    and the refresh rate is at least 2, a [start] whose first cycles
    return and then [stop] both return normally: afterwards no task
    runs and no client is held, while the store and the snapshot are as
    the first cycles left them.  A second [start] whose first cycles
    return opens a new client and leaves both tasks running again at
    the same intervals. *)
Theorem start_stop_start st st_n st_c :
  running (_node_learning_task st) = false ->
  running (_contract_learning_task st) = false ->
  2 <= _refresh_rate st ->
  _learn_about_nodes (armed NodeTask (_refresh_rate st) (entered st)) = (Ok tt, st_n) ->
  _learn_about_contracts (armed ContractTask (_refresh_rate st - 2) st_n) = (Ok tt, st_c) ->
  exists st1 st2,
    start st = (Ok tt, st1) /\ stop st1 = (Ok tt, st2) /\
    is_running st1 = true /\
    is_running st2 = false /\ _client st2 = None /\
    influx st2 = influx st_c /\ snapshot st2 = snapshot st_c /\
    forall st_n2 st_c2,
      _learn_about_nodes (armed NodeTask (_refresh_rate st) (entered st2))
        = (Ok tt, st_n2) ->
      _learn_about_contracts (armed ContractTask (_refresh_rate st - 2) st_n2)
        = (Ok tt, st_c2) ->
      exists st3,
        start st2 = (Ok tt, st3) /\
        is_running st3 = true /\
        _client st3 = Some {| host := "localhost"; port := 8086; database := DB_NAME |} /\
        _node_learning_task st3 = started (_refresh_rate st) /\
        _contract_learning_task st3 = started (_refresh_rate st - 2).
Proof.
  intros Hn Hc Hr Hnodes Hcontracts.
  destruct (start_at_first_cycles_return 999 st st_n st_c Hn Hc Hr Hnodes Hcontracts)
    as (H1 & Tn & Tc & Hcl & _).
  destruct (entered_spec st) as (_ & _ & _ & _ & _ & _ & _ & Ecl & _).
  destruct (learn_about_nodes_frame _ _ _ Hnodes) as (_ & N2 & _).
  destruct (learn_about_contracts_frame _ _ _ Hcontracts) as (_ & K2 & _).
  set (st1 := attached ContractTask (attached NodeTask st_c)) in *.
  assert (Hrun1 : is_running st1 = true).
  { unfold st1, attached, is_running.
    cbn [task set_task _node_learning_task _contract_learning_task running].
    rewrite Tn, Tc. reflexivity. }
  assert (Hcl1 : exists c, _client st1 = Some c).
  { unfold st1, attached. cbn [task set_task _client]. rewrite Hcl, Ecl.
    destruct (_client st); eexists; reflexivity. }
  destruct Hcl1 as (c & Hcl1).
  pose proof (stop_running_eq st1 c Hrun1 Hcl1) as H2.
  set (st2 := snd (stop st1)).
  assert (E2 : stop st1 = (Ok tt, st2)) by (unfold st2; rewrite H2; reflexivity).
  assert (Hn2 : running (_node_learning_task st2) = false)
    by (unfold st2; rewrite H2; reflexivity).
  assert (Hc2 : running (_contract_learning_task st2) = false)
    by (unfold st2; rewrite H2; reflexivity).
  assert (Hr2 : _refresh_rate st2 = _refresh_rate st).
  { unfold st2. rewrite H2. cbn. rewrite K2. cbn. rewrite N2. cbn.
    unfold entered, open_client. cbn [_client add_event].
    destruct (_client st); reflexivity. }
  assert (Hcl2 : _client st2 = None) by (unfold st2; rewrite H2; reflexivity).
  exists st1, st2.
  split; [rewrite start_is_start_at; exact H1 |]. split; [exact E2 |].
  split; [exact Hrun1 |].
  split; [unfold is_running; rewrite Hn2; reflexivity |].
  split; [exact Hcl2 |].
  split; [unfold st2; rewrite H2; reflexivity |].
  split; [unfold st2; rewrite H2; reflexivity |].
  intros st_n2 st_c2 Hnodes2 Hcontracts2.
  rewrite <- Hr2 in Hnodes2, Hcontracts2.
  assert (Hr' : 2 <= _refresh_rate st2) by (rewrite Hr2; exact Hr).
  destruct (start_at_first_cycles_return 999 st2 st_n2 st_c2 Hn2 Hc2 Hr'
              Hnodes2 Hcontracts2) as (H3 & Tn3 & Tc3 & Hcl3 & _).
  destruct (entered_spec st2) as (_ & _ & _ & _ & _ & _ & _ & Ecl2 & _).
  eexists. split; [rewrite start_is_start_at; exact H3 |].
  unfold attached, is_running, started.
  cbn [task set_task _client _node_learning_task _contract_learning_task
       running interval run_at_start errback].
  rewrite Tn3, Tc3, Hcl3, Ecl2, Hcl2, Hr2. cbn. repeat split.
Qed.

(** X2. [start] does not report a first cycle that raises.  From a
    state where neither task runs, with [restart_on_error] and a refresh
    rate of at least 2: when the first node cycle raises and the first
    contract cycle returns, attaching the errback calls [_handle_errors]
    at once, which enters [start] a second time; that second [start]
    runs the node cycle again and then ends in twisted's assertion on
    the contract task, which the deferred keeps.  So [start] returns
    normally after having been entered twice; the contract task runs
    with its errback, and the node task has none and runs only if its
    second cycle returned. *)
Theorem start_hides_first_cycle_failure st e st_n st_c :
  running (_node_learning_task st) = false ->
  running (_contract_learning_task st) = false ->
  2 <= _refresh_rate st ->
  _restart_on_error st = true ->
  _learn_about_nodes (armed NodeTask (_refresh_rate st) (entered st)) = (Raise e, st_n) ->
  _learn_about_contracts
    (armed ContractTask (_refresh_rate st - 2)
       (set_task NodeTask (halted (_node_learning_task st_n)) st_n)) = (Ok tt, st_c) ->
  exists st',
    start st = (Ok tt, st') /\
    (forall depth, start_at (S (S depth)) st = (Ok tt, st')) /\
    start_calls (events st') = S (S (start_calls (events st))) /\
    _contract_learning_task st' = started (_refresh_rate st - 2) /\
    errback (_node_learning_task st') = false /\
    running (_node_learning_task st') =
      match fst (_learn_about_nodes
                   (armed NodeTask (_refresh_rate st)
                      (entered (add_event (Log WARN (MsgRestarting e)) st_c)))) with
      | Ok _ => true
      | Raise _ => false
      end.
Proof.
  intros Hn Hc Hr Hrestart Hnodes Hcontracts.
  destruct (entered_spec st) as (En & Ec & Er & Ere & _ & _ & _ & _ & Eev).
  destruct (learn_about_nodes_frame _ _ _ Hnodes)
    as (_ & N2 & N3 & N4 & N5 & nevs & N6 & N7).
  destruct (learn_about_contracts_frame _ _ _ Hcontracts)
    as (_ & K2 & K3 & K4 & K5 & kevs & K6 & K7).
  cbn in N2, N3, N4, N5, N6, K2, K3, K4, K5, K6.
  set (sw := add_event (Log WARN (MsgRestarting e)) st_c).
  assert (Wn : running (_node_learning_task sw) = false)
    by (unfold sw; cbn; rewrite K4; reflexivity).
  assert (Wc : running (_contract_learning_task sw) = true)
    by (unfold sw; cbn; rewrite K5; reflexivity).
  assert (Wr : _refresh_rate sw = _refresh_rate st)
    by (unfold sw; cbn; rewrite K2, N2, Er; reflexivity).
  assert (Wre : _restart_on_error st_c = true)
    by (rewrite K3, N3, Ere; exact Hrestart).
  assert (Wev : start_calls (events sw) = S (start_calls (events st))).
  { unfold sw. cbn. rewrite start_calls_app, K6, start_calls_app, K7.
    cbn. rewrite start_calls_app, N6, start_calls_app, N7. cbn.
    rewrite start_calls_app, Eev, start_calls_app.
    destruct (_client st); cbn; lia. }
  destruct (start_at_contract_running 0 sw Wn Wc ltac:(rewrite Wr; lia))
    as (s & Es & Hs & S1 & S2 & S3 & S4).
  exists (attached ContractTask s).
  assert (Hall : forall depth, start_at (S (S depth)) st = (Ok tt, attached ContractTask s)).
  { intros depth.
    destruct (start_at_contract_running depth sw Wn Wc ltac:(rewrite Wr; lia))
      as (s' & Es' & Hs' & _).
    rewrite <- Es in Es'. subst s'.
    rewrite start_at_stopped by (unfold is_running; rewrite Hn; reflexivity).
    unfold bind.
    rewrite LoopingCall_start_now
      by first [lia | cbn [task]; rewrite En; exact Hn].
    cbn [task_body]. rewrite Hnodes. cbn [task].
    rewrite LoopingCall_start_now
      by first [lia | cbn [task set_task _contract_learning_task];
                      rewrite N5, Ec; exact Hc].
    cbn [task_body]. rewrite Hcontracts.
    unfold addErrback at 1.
    rewrite handle_errors_with_node_stopped
      by first [exact Wre | rewrite K4; reflexivity].
    fold sw. rewrite Hs'. reflexivity. }
  split; [rewrite start_is_start_at; apply Hall |].
  split; [exact Hall |].
  unfold attached, started.
  cbn [task set_task _node_learning_task _contract_learning_task events].
  rewrite S4, Wev, S2, S3, S1, Wr. unfold sw.
  cbn [add_event _contract_learning_task]. rewrite K5.
  repeat split; reflexivity.
Qed.

(** X19. [start] does not report a first contract cycle that raises
    either, and nothing restarts it.  From a state where neither task
    runs, with [restart_on_error] and a refresh rate of at least 2: when
    the first node cycle returns and the first contract cycle raises,
    attaching the errback calls [_handle_errors] at once; it logs that
    it restarts the crawler and, finding the node task running, does
    not enter [start].  So [start] returns normally with the node task
    running and the contract task stopped: the crawler is not running,
    and the snapshot is the one from before. *)
Theorem start_hides_contract_cycle_failure st st_n e st_c :
  running (_node_learning_task st) = false ->
  running (_contract_learning_task st) = false ->
  2 <= _refresh_rate st ->
  _restart_on_error st = true ->
  _learn_about_nodes (armed NodeTask (_refresh_rate st) (entered st)) = (Ok tt, st_n) ->
  _learn_about_contracts (armed ContractTask (_refresh_rate st - 2) st_n) = (Raise e, st_c) ->
  exists st',
    start st = (Ok tt, st') /\
    (forall depth, start_at (S depth) st = (Ok tt, st')) /\
    _node_learning_task st' = started (_refresh_rate st) /\
    running (_contract_learning_task st') = false /\
    is_running st' = false /\
    start_calls (events st') = S (start_calls (events st)) /\
    events st' = events st_c ++ [Log WARN (MsgRestarting e)] /\
    snapshot st' = snapshot st_n.
Proof.
  intros Hn Hc Hr Hrestart Hnodes Hcontracts.
  destruct (entered_spec st) as (En & Ec & Er & Ere & _ & _ & _ & _ & Eev).
  destruct (learn_about_nodes_frame _ _ _ Hnodes)
    as (_ & N2 & N3 & N4 & N5 & nevs & N6 & N7).
  destruct (learn_about_contracts_frame _ _ _ Hcontracts)
    as (_ & K2 & K3 & K4 & K5 & kevs & K6 & K7).
  cbn in N2, N3, N4, N5, N6, K2, K3, K4, K5, K6.
  assert (Ksnap : __snapshot st_c = __snapshot st_n).
  { revert Hcontracts. unfold _learn_about_contracts, bind.
    destruct (token_counter_of period_range ∅ _) as [[tc | e'] s1] eqn:E;
      destruct (only_world_token_counter_of _ _ _ _ _ E) as (w & ->);
      intros H; apply pair_equal_spec in H; destruct H as [H <-];
      [discriminate H | reflexivity]. }
  set (s2 := attached NodeTask
               (set_task ContractTask (halted (_contract_learning_task st_c)) st_c)).
  assert (Hall : forall depth,
             start_at (S depth) st =
               (Ok tt, add_event (Log WARN (MsgRestarting e)) s2)).
  { intros depth.
    rewrite start_at_stopped by (unfold is_running; rewrite Hn; reflexivity).
    unfold bind.
    rewrite LoopingCall_start_now
      by first [lia | cbn [task]; rewrite En; exact Hn].
    cbn [task_body]. rewrite Hnodes.
    rewrite LoopingCall_start_now
      by first [lia | cbn [task]; rewrite N5, Ec; exact Hc].
    cbn [task_body]. rewrite Hcontracts. cbn [task].
    unfold addErrback. fold (attached NodeTask
      (set_task ContractTask (halted (_contract_learning_task st_c)) st_c)).
    fold s2.
    rewrite handle_errors_with_node_running
      by first [unfold s2, attached; cbn; rewrite K3, N3, Ere; exact Hrestart
               | unfold s2, attached; cbn; rewrite K4, N4; reflexivity].
    reflexivity. }
  exists (add_event (Log WARN (MsgRestarting e)) s2).
  split; [rewrite start_is_start_at; apply Hall |].
  split; [exact Hall |].
  unfold s2, attached, is_running, started, snapshot.
  cbn [add_event task set_task halted _node_learning_task _contract_learning_task
       running interval run_at_start errback events __snapshot].
  rewrite K4, N4, Ksnap. cbn [running interval run_at_start andb].
  repeat split.
  rewrite start_calls_app, K6, start_calls_app, K7. cbn.
  rewrite start_calls_app, N6, start_calls_app, N7. cbn.
  rewrite start_calls_app, Eev, start_calls_app.
  destruct (_client st); cbn; lia.
Qed.

(** X3. With exactly one task running, [start] and [stop] cannot put
    the crawler right.  [stop] does nothing, since [is_running] is
    false; [start] passes its guard and ends in twisted's assertion on
    the task that runs already, before any errback is attached: the
    contract task is as it was, and so is a node task that ran. *)
Theorem half_running_start_fails st :
  running (_node_learning_task st) = negb (running (_contract_learning_task st)) ->
  0 <= _refresh_rate st ->
  stop st = (Ok tt, st) /\
  fst (start st) = Raise (AssertionError "Tried to start an already running LoopingCall.") /\
  _contract_learning_task (snd (start st)) = _contract_learning_task st /\
  (running (_node_learning_task st) = true ->
   _node_learning_task (snd (start st)) = _node_learning_task st) /\
  (running (_node_learning_task st) = false ->
   errback (_node_learning_task (snd (start st))) = false).
Proof.
  intros Hhalf Hr.
  assert (Hnot : is_running st = false).
  { unfold is_running. rewrite Hhalf.
    destruct (running (_contract_learning_task st)); reflexivity. }
  split; [apply stop_not_running; exact Hnot |].
  rewrite start_is_start_at.
  destruct (running (_contract_learning_task st)) eqn:Ec; cbn [negb] in Hhalf.
  - destruct (start_at_contract_running 999 st Hhalf Ec Hr)
      as (s & _ & Hs & _ & S2 & S3 & _).
    rewrite Hs. cbn [fst snd].
    split; [reflexivity |]. split; [exact S3 |].
    split; [congruence | intros _; exact S2].
  - destruct (entered_spec st) as (En & Eco & _).
    rewrite start_at_stopped by exact Hnot. unfold bind.
    rewrite LoopingCall_start_running by (cbn [task]; rewrite En; exact Hhalf).
    cbn [fst snd add_event _node_learning_task _contract_learning_task].
    split; [reflexivity |]. split; [exact Eco |].
    split; [intros _; exact En | congruence].
Qed.

End MoreLifecycle.

Section ErrorPolicy.
Context {C : Collaborators}.

(** X4. The restart after a node-task failure never completes.  When
    a node cycle raises in a started crawler that restarts on error,
    the task boundary stops the node task and [_handle_errors] enters
    [start] once; that [start] runs the node cycle again and then ends
    in twisted's assertion on the contract task, which never stopped.
    The node task is left without its errback, running only if the
    second cycle returned, and the contract task is as before. *)
Theorem node_failure_restart_fails st e st1 :
  _learn_about_nodes st = (Raise e, st1) ->
  is_running st = true ->
  errback (_node_learning_task st) = true ->
  _restart_on_error st = true ->
  0 <= _refresh_rate st ->
  exists st2,
    LoopingCall_call NodeTask st =
      (Raise (AssertionError "Tried to start an already running LoopingCall."), st2) /\
    start_calls (events st2) = S (start_calls (events st)) /\
    errback (_node_learning_task st2) = false /\
    _contract_learning_task st2 = _contract_learning_task st /\
    running (_node_learning_task st2) =
      match fst (_learn_about_nodes
                   (armed NodeTask (_refresh_rate st)
                      (entered
                         (add_event (Log WARN (MsgRestarting e))
                            (set_task NodeTask (halted (_node_learning_task st)) st1)))))
      with
      | Ok _ => true
      | Raise _ => false
      end.
Proof.
  intros Hl Hrun Herr Hrestart Hr.
  unfold is_running in Hrun. apply andb_true_iff in Hrun. destruct Hrun as [Hn Hk].
  destruct (learn_about_nodes_frame _ _ _ Hl)
    as (_ & F2 & F3 & F4 & F5 & evs & F6 & F7).
  set (stopped := set_task NodeTask (halted (_node_learning_task st)) st1).
  set (sw := add_event (Log WARN (MsgRestarting e)) stopped).
  assert (Wn : running (_node_learning_task sw) = false) by reflexivity.
  assert (Wc : running (_contract_learning_task sw) = true)
    by (unfold sw, stopped; cbn; rewrite F5; exact Hk).
  assert (Wr : _refresh_rate sw = _refresh_rate st)
    by (unfold sw, stopped; cbn; exact F2).
  destruct (start_at_contract_running 999 sw Wn Wc ltac:(rewrite Wr; exact Hr))
    as (s & _ & Hs & S1 & S2 & S3 & S4).
  exists s. split.
  - assert (Hstopped :
              set_task NodeTask
                {| running := false; interval := interval (_node_learning_task st1);
                   run_at_start := run_at_start (_node_learning_task st1);
                   errback := errback (_node_learning_task st1) |} st1 = stopped)
      by (unfold stopped, halted; rewrite F4; reflexivity).
    unfold LoopingCall_call, task_body, task. rewrite Hl. cbv beta iota zeta.
    rewrite Hstopped, F4, Herr.
    rewrite handle_errors_node_stopped
      by first [unfold stopped; cbn; rewrite F3; exact Hrestart | reflexivity].
    fold sw. rewrite start_is_start_at. exact Hs.
  - rewrite S4, S2, S3, S1, Wr. unfold sw at 1 2, stopped at 1 2.
    cbn [add_event set_task events _contract_learning_task].
    rewrite start_calls_app, F6, start_calls_app, F7, F5. cbn.
    repeat split; try reflexivity. lia.
Qed.

(** X5. Without [restart_on_error] a failed task stays stopped.  When
    the body of either task raises at its boundary, [_handle_errors]
    logs the failure as critical and does nothing else: the firing
    returns normally, the failed task is stopped, the other task is as
    it was, and [start] is not entered. *)
Theorem failure_without_restart t st e st1 :
  task_body t st = (Raise e, st1) ->
  errback (task t st1) = true ->
  _restart_on_error st1 = false ->
  exists st2,
    LoopingCall_call t st = (Ok tt, st2) /\
    running (task t st2) = false /\
    task (match t with NodeTask => ContractTask | ContractTask => NodeTask end) st2 =
      task (match t with NodeTask => ContractTask | ContractTask => NodeTask end) st1 /\
    events st2 = events st1 ++ [Log CRITICAL (MsgUnhandled e)] /\
    start_calls (events st2) = start_calls (events st1).
Proof.
  intros Hbody Herr Hrestart. eexists.
  unfold LoopingCall_call. rewrite Hbody. cbv beta iota zeta. rewrite Herr.
  rewrite handle_errors_no_restart by (destruct t; exact Hrestart).
  split; [reflexivity |].
  destruct t; cbn; rewrite ?start_calls_app; cbn; rewrite ?Nat.add_0_r;
    repeat split; reflexivity.
Qed.

(** X6. The constructor on a reachable store.  It returns a crawler
    that is not running, holds a client and has an empty snapshot, with
    the settings it was given; the store has the database [network]
    afterwards, and a store that had it already is unchanged. *)
Theorem init_builds_stopped_crawler w store rate restart :
  reachable store ->
  exists st,
    __init__ w store rate restart = (Ok tt, st) /\
    is_running st = false /\
    snapshot st = ∅ /\
    _client st = Some {| host := "localhost"; port := 8086; database := DB_NAME |} /\
    _refresh_rate st = rate /\ _restart_on_error st = restart /\
    world st = w /\
    has_database DB_NAME (influx st) = true /\
    (has_database DB_NAME store = true -> influx st = store).
Proof.
  intros Hr. unfold __init__.
  match goal with
  | |- context [bind (emit ?ev) ?k ?st0] =>
      change (bind (emit ev) k st0) with (k tt (add_event ev st0));
      set (s0 := add_event ev st0)
  end.
  cbv beta.
  destruct (has_database DB_NAME store) eqn:Hdb.
  - rewrite (bind_Ok_eq _ _ _ _ _
               (ensure_existing s0 _ eq_refl Hr Hdb)).
    eexists. split; [reflexivity |]. cbn. repeat split; auto.
  - rewrite (bind_Ok_eq _ _ _ _ _
               (ensure_absent s0 _ eq_refl Hr Hdb)).
    eexists. split; [reflexivity |]. cbn. repeat split; auto.
    + unfold has_database, bootstrapped. cbn [databases].
      rewrite existsb_snoc. cbn [db_name]. rewrite (String.eqb_refl DB_NAME).
      apply orb_true_r.
    + discriminate.
Qed.

(** X7. The constructor on an unreachable store raises the store's
    exception: no crawler is built, the store is as it was and nothing
    was asked to be created. *)
Theorem init_fails_on_unreachable_store w store rate restart e :
  health store = Unreachable e ->
  fst (__init__ w store rate restart) = Raise e /\
  influx (snd (__init__ w store rate restart)) = store /\
  creations (events (snd (__init__ w store rate restart))) = [].
Proof.
  intros Hh.
  cbv [__init__ _ensure_db_exists bind the_client emit request influx_get_list_database].
  cbn [_client influx add_event set_influx]. rewrite Hh.
  repeat split; reflexivity.
Qed.

End ErrorPolicy.

Section MoreCycles.
Context {C : Collaborators}.

Lemma decode_int_str z : decode_int (str z) = Some z.
Proof.
  unfold decode_int, str.
  rewrite NilZero.isi.
  - simpl. rewrite DecimalZ.of_to. reflexivity.
  - destruct z; simpl; try discriminate.
    intros H. injection H as H. exact (Unsigned.to_uint_nonnil _ H).
  - destruct z; simpl; try discriminate.
    intros H. injection H as H. exact (Unsigned.to_uint_nonnil _ H).
Qed.

(** X8. The sample time can be read back from a record.  Whatever the
    identifiers and floats in it, the text after the last space of an
    encoded record is a decimal integer that decodes to the timestamp
    that was encoded; so two records with different timestamps differ. *)
Theorem record_timestamp_round_trip m s w sd ed stake locked cp lcp ts :
  decode_int
    (sample_time_of (DB_LINE_PROTOCOL_format m s w sd ed stake locked cp lcp ts))
  = Some ts.
Proof. rewrite format_sample_time. apply decode_int_str. Qed.

(** X9. The contract cycle touches nothing but the world and the
    snapshot.  Either it stores a new dict under [future_locked_tokens]
    and returns, or it raises and leaves even the snapshot; the store,
    the trace, the client, the tasks and the settings are as before in
    both cases. *)
Theorem contract_cycle_frame st :
  exists w,
    (exists token_counter,
       _learn_about_contracts st =
         (Ok tt,
          set_snapshot (<["future_locked_tokens" := token_counter]> (__snapshot st))
            (set_world w st))) \/
    (exists e, _learn_about_contracts st = (Raise e, set_world w st)).
Proof.
  unfold _learn_about_contracts, bind.
  destruct (token_counter_of period_range ∅ st) as [[tc | e] st1] eqn:E;
    destruct (only_world_token_counter_of _ _ _ _ _ E) as (w & ->); exists w.
  - left. exists tc. reflexivity.
  - right. exists e. reflexivity.
Qed.

(** With no points there is no batch and no request. *)
Lemma write_nothing db s : influx_write_points [] db 10000 s = (Ok true, s).
Proof. reflexivity. Qed.

Lemma format_in_range epoch :
  MIN_EPOCH <= epoch <= MAX_EPOCH -> MayaDT_format epoch = Ok tt.
Proof.
  intros [H1 H2]. unfold MayaDT_format.
  apply Z.leb_le in H1. apply Z.leb_le in H2. rewrite H1, H2. reflexivity.
Qed.

Lemma format_out_of_range epoch :
  epoch < MIN_EPOCH \/ MAX_EPOCH < epoch ->
  exists e, MayaDT_format epoch = Raise e /\
            (-67768040609740800 <= epoch <= 67768036191676799 ->
             exists msg, e = ValueError msg).
Proof.
  intros H. unfold MayaDT_format.
  assert (E : (MIN_EPOCH <=? epoch) && (epoch <=? MAX_EPOCH) = false).
  { apply andb_false_iff. destruct H as [H | H];
      [left; apply Z.leb_gt; exact H | right; apply Z.leb_gt; exact H]. }
  rewrite E.
  destruct ((-67768040609740800 <=? epoch) && (epoch <=? 67768036191676799)) eqn:E1.
  - eexists. split; [reflexivity | intros _; eexists; reflexivity].
  - apply andb_false_iff in E1.
    destruct ((-9223372036854775808 <=? epoch) && (epoch <=? 9223372036854775807));
      eexists; (split; [reflexivity |]); intros [A B];
      destruct E1 as [E1 | E1]; apply Z.leb_gt in E1; lia.
Qed.

(** X10. A cycle with no known participants sends nothing.  When the
    nodes dict is empty and the block time is one that datetime can
    format, the cycle calls [write_points] once, with an empty batch,
    for which the client makes no request: the cycle returns normally
    whatever the state of the store, logs no warning and leaves the
    store as it was. *)
Theorem empty_network_cycle st block_time w1 current_period w2 w3 c :
  getBlock_latest_timestamp (world st) = (Ok block_time, w1) ->
  get_current_period w1 = (Ok current_period, w2) ->
  abridged_nodes_dict w2 = (Ok [], w3) ->
  MIN_EPOCH <= block_time <= MAX_EPOCH ->
  _client st = Some c ->
  _learn_about_nodes st =
    (Ok tt,
     add_event (Call_write_points [] DB_NAME "s" 10000 "line")
       (add_event (Log INFO (MsgProcessingNodes 0 block_time current_period))
          (set_world w3 st))).
Proof.
  intros Hbt Hcp Hn Hrange Hc.
  assert (Hcollect : collect_node_data st =
            (Ok (block_time, current_period, []),
             add_event (Log INFO (MsgProcessingNodes 0 block_time current_period))
               (set_world w3 st))).
  { unfold collect_node_data, bind, ask, lift, log, emit.
    rewrite Hbt. cbn [world set_world]. rewrite Hcp. cbn [world set_world].
    rewrite Hn. rewrite (format_in_range _ Hrange). reflexivity. }
  unfold _learn_about_nodes. rewrite (bind_Ok_eq _ _ _ _ _ Hcollect).
  unfold write_node_data, bind, the_client, emit, request, log.
  cbn [influx _client add_event set_world set_influx fst snd]. rewrite Hc.
  cbn [influx _client add_event set_world set_influx fst snd].
  rewrite write_nothing. reflexivity.
Qed.

(** X18. A block time that datetime cannot format aborts the cycle.
    The info line formats [MayaDT(epoch=block_time)] before any
    participant is sampled; for a block time before year 1 or after
    year 9999 this raises ([ValueError] within the C library's
    calendar), so the cycle ends there: nothing is logged, no
    participant is asked about, no write call is made. *)
Theorem unformattable_block_time_aborts_cycle st block_time w1 current_period w2 nodes w3 :
  getBlock_latest_timestamp (world st) = (Ok block_time, w1) ->
  get_current_period w1 = (Ok current_period, w2) ->
  abridged_nodes_dict w2 = (Ok nodes, w3) ->
  block_time < MIN_EPOCH \/ MAX_EPOCH < block_time ->
  exists e,
    _learn_about_nodes st = (Raise e, set_world w3 st) /\
    (-67768040609740800 <= block_time <= 67768036191676799 ->
     exists msg, e = ValueError msg).
Proof.
  intros Hbt Hcp Hn Hrange.
  destruct (format_out_of_range _ Hrange) as (e & He & Hv).
  exists e. split; [| exact Hv].
  unfold _learn_about_nodes. apply bind_Raise_eq.
  unfold collect_node_data, bind, ask, lift.
  rewrite Hbt. cbn [world set_world]. rewrite Hcp. cbn [world set_world].
  rewrite Hn, He. reflexivity.
Qed.

End MoreCycles.

Section MoreHistory.
Context {C : Collaborators}.

(** X11. Rows with a null or zero aggregate are skipped unread.  The
    loop gives the same outcome on the rows as on the kept rows alone,
    so a skipped row cannot make it raise, whatever its time string. *)
Theorem skipped_rows_are_not_parsed rows :
  forall d, collect_points rows d = collect_points (kept rows) d.
Proof.
  induction rows as [| r rest IH]; intros d; [reflexivity |].
  unfold kept. simpl. destruct (truthy (pt_value r)) eqn:Et; simpl.
  - rewrite Et. destruct (from_rfc3339 (pt_time r)); [apply IH | reflexivity].
  - apply IH.
Qed.

Lemma od_setitem_fresh {V : Type} k (v : V) d :
  k ∉ map fst d -> od_setitem k v d = d ++ [(k, v)].
Proof.
  induction d as [| [k' v'] d' IH]; simpl; intros H; [reflexivity |].
  apply not_elem_of_cons in H. destruct H as [Hne Hd].
  destruct (k' =? k) eqn:E; [apply Z.eqb_eq in E; congruence |].
  rewrite (IH Hd). reflexivity.
Qed.

Lemma collect_kept_in_order rows :
  forall d days,
    Forall2 (fun r day => from_rfc3339 (pt_time r) = Ok day) (kept rows) days ->
    NoDup (map fst d ++ days) ->
    collect_points rows d = Ok (d ++ combine days (map pt_value (kept rows))).
Proof.
  induction rows as [| r rest IH]; intros d days Hdays Hnd.
  - inversion Hdays; subst. simpl. rewrite app_nil_r. reflexivity.
  - unfold kept in *. simpl in *. destruct (truthy (pt_value r)) eqn:Et.
    + inversion Hdays as [| r0 day kept_rest days' Hday Hrest]; subst.
      rewrite Hday.
      assert (Hfresh : day ∉ map fst d).
      { apply NoDup_app in Hnd. destruct Hnd as (_ & Hdisj & _).
        intros Hin. apply (Hdisj _ Hin). left. }
      rewrite (od_setitem_fresh _ _ _ Hfresh).
      rewrite (IH (d ++ [(day, pt_value r)]) days' Hrest).
      * simpl. rewrite <- app_assoc. reflexivity.
      * rewrite map_app. simpl. rewrite <- app_assoc. exact Hnd.
    + apply IH; assumption.
Qed.

(** X12. The series keeps the order of the rows.  When the kept rows
    parse to pairwise different days, the mapping returned is exactly
    those rows in the order the store gave them: each day with its
    aggregate, nothing added and nothing reordered. *)
Theorem series_is_kept_rows_in_order rows days :
  Forall2 (fun r day => from_rfc3339 (pt_time r) = Ok day) (kept rows) days ->
  NoDup days ->
  collect_points rows [] = Ok (combine days (map pt_value (kept rows))).
Proof.
  intros Hdays Hnd. apply (collect_kept_in_order rows [] days Hdays). exact Hnd.
Qed.

Lemma od_get_setitem {V : Type} k (v : V) d : od_get k (od_setitem k v d) = Some v.
Proof.
  induction d as [| [k' v'] d' IH]; simpl.
  - rewrite Z.eqb_refl. reflexivity.
  - destruct (k' =? k) eqn:E; simpl; [rewrite Z.eqb_refl; reflexivity |].
    rewrite E. exact IH.
Qed.

Lemma od_get_setitem_other {V : Type} k k' (v : V) d :
  k' <> k -> od_get k (od_setitem k' v d) = od_get k d.
Proof.
  intros Hne. induction d as [| [k0 v0] d' IH]; simpl.
  - destruct (k' =? k) eqn:E; [apply Z.eqb_eq in E; congruence | reflexivity].
  - destruct (k0 =? k') eqn:E; simpl.
    + apply Z.eqb_eq in E. subst k0.
      destruct (k' =? k) eqn:E'; [apply Z.eqb_eq in E'; congruence | reflexivity].
    + destruct (k0 =? k); [reflexivity | exact IH].
Qed.

Lemma collect_points_app rows1 rows2 :
  forall d,
    collect_points (rows1 ++ rows2) d =
    match collect_points rows1 d with
    | Ok filled => collect_points rows2 filled
    | Raise e => Raise e
    end.
Proof.
  induction rows1 as [| r rest IH]; intros d; simpl; [reflexivity |].
  destruct (truthy (pt_value r)); [| apply IH].
  destruct (from_rfc3339 (pt_time r)); [apply IH | reflexivity].
Qed.

Lemma collect_points_other_days rows day :
  forall d series,
    Forall (fun r => truthy (pt_value r) = true ->
                     from_rfc3339 (pt_time r) <> Ok day) rows ->
    collect_points rows d = Ok series ->
    od_get day series = od_get day d.
Proof.
  induction rows as [| r rest IH]; intros d series Hother H; simpl in H.
  - apply Ok_inj in H. subst series. reflexivity.
  - apply Forall_cons in Hother. destruct Hother as [Hr Hrest].
    destruct (truthy (pt_value r)).
    + destruct (from_rfc3339 (pt_time r)) as [k | e]; [| discriminate H].
      rewrite (IH _ _ Hrest H). apply od_get_setitem_other.
      intros ->. exact (Hr eq_refl eq_refl).
    + apply (IH _ _ Hrest H).
Qed.

(** X14. The last row of a day decides its value.  If the store
    returns several kept rows for one day, the mapping holds the
    aggregate of the last of them. *)
Theorem last_row_of_a_day_wins before r after day series :
  truthy (pt_value r) = true ->
  from_rfc3339 (pt_time r) = Ok day ->
  Forall (fun r' => truthy (pt_value r') = true ->
                    from_rfc3339 (pt_time r') <> Ok day) after ->
  collect_points (before ++ r :: after) [] = Ok series ->
  od_get day series = Some (pt_value r).
Proof.
  intros Ht Hday Hafter H. rewrite collect_points_app in H.
  destruct (collect_points before []) as [filled | e]; [| discriminate H].
  simpl in H. rewrite Ht, Hday in H.
  rewrite (collect_points_other_days _ _ _ _ Hafter H). apply od_get_setitem.
Qed.

(** The date arithmetic for any number of days, in range. *)
Lemma range_of_in_bounds st days today w :
  utcnow_ordinal (world st) = (today, w) ->
  Z.abs (days - 1) <= MAXDELTA ->
  MINORDINAL <= today - (days - 1) <= MAXORDINAL ->
  MINORDINAL <= today + 1 <= MAXORDINAL ->
  range_of days st = (Ok (today - (days - 1), today), set_world w st) /\
  forall st', next_day today st' = (Ok (today + 1), st').
Proof.
  intros Hnow Hdelta Hlo Hhi. unfold MINORDINAL, MAXORDINAL, MAXDELTA in *.
  assert (Hd : timedelta (days - 1) = Ok (days - 1)).
  { unfold timedelta, MAXDELTA.
    destruct (Z.leb_spec (Z.abs (days - 1)) 999999999); [reflexivity | lia]. }
  assert (Hb : datetime_sub today (days - 1) = Ok (today - (days - 1))).
  { unfold datetime_sub, checked_date, MINORDINAL, MAXORDINAL.
    destruct (Z.leb_spec 1 (today - (days - 1))); [| lia].
    destruct (Z.leb_spec (today - (days - 1)) 3652059); [reflexivity | lia]. }
  assert (He : datetime_add today 1 = Ok (today + 1)).
  { unfold datetime_add, checked_date, MINORDINAL, MAXORDINAL.
    destruct (Z.leb_spec 1 (today + 1)); [| lia].
    destruct (Z.leb_spec (today + 1) 3652059); [reflexivity | lia]. }
  split.
  - unfold range_of, bind, ask, lift. rewrite Hnow, Hd, Hb. reflexivity.
  - intros st'. unfold next_day, bind, lift.
    change (timedelta 1) with (Ok (A := Z) 1). cbv beta iota. rewrite He.
    reflexivity.
Qed.

(** X15. The number of days is not validated.  For zero or a negative
    number of days (within the date bounds) both functions raise
    nothing of their own: each issues its query, over a range whose
    first instant is not before its end, which no point can lie in. *)
Theorem nonpositive_days_query_an_empty_range st days today w :
  utcnow_ordinal (world st) = (today, w) ->
  days <= 0 ->
  MINORDINAL <= today ->
  today - (days - 1) <= MAXORDINAL ->
  today + 1 <= today - (days - 1) /\
  events (snd (get_historical_locked_tokens_over_range days st)) =
    events st ++ [Call_query (locked_tokens_query (today - (days - 1)) (today + 1))] /\
  events (snd (get_historical_num_stakers_over_range days st)) =
    events st ++ [Call_query (num_stakers_query (today - (days - 1)) (today + 1))].
Proof.
  intros Hnow Hdays Hlo Hhi. unfold MINORDINAL, MAXORDINAL in *.
  destruct (range_of_in_bounds st days today w Hnow) as [Hrange Hnext];
    unfold MINORDINAL, MAXORDINAL, MAXDELTA; try lia.
  split; [lia |]. split.
  - unfold get_historical_locked_tokens_over_range.
    rewrite (bind_Ok_eq _ _ _ _ _ Hrange). cbn [fst snd].
    rewrite (bind_Ok_eq _ _ _ _ _ (Hnext _)).
    unfold query, bind, emit, lift. cbn [influx add_event set_world].
    destruct (run_query _ _); reflexivity.
  - unfold get_historical_num_stakers_over_range.
    rewrite (bind_Ok_eq _ _ _ _ _ Hrange). cbn [fst snd].
    rewrite (bind_Ok_eq _ _ _ _ _ (Hnext _)).
    unfold query, bind, emit, lift. cbn [influx add_event set_world].
    destruct (run_query _ _); reflexivity.
Qed.

(** X16. A failure of the store's query reaches the caller.  When the
    store raises on the query, each function raises that exception
    after its one query call; no mapping is returned. *)
Theorem query_failure_propagates st days today w e :
  utcnow_ordinal (world st) = (today, w) ->
  1 <= days ->
  MINORDINAL <= today - (days - 1) ->
  today + 1 <= MAXORDINAL ->
  (run_query (locked_tokens_query (today - (days - 1)) (today + 1)) (influx st) = Raise e ->
   get_historical_locked_tokens_over_range days st =
     (Raise e,
      add_event (Call_query (locked_tokens_query (today - (days - 1)) (today + 1)))
        (set_world w st))) /\
  (run_query (num_stakers_query (today - (days - 1)) (today + 1)) (influx st) = Raise e ->
   get_historical_num_stakers_over_range days st =
     (Raise e,
      add_event (Call_query (num_stakers_query (today - (days - 1)) (today + 1)))
        (set_world w st))).
Proof.
  intros Hnow Hdays Hlo Hhi. split; intros Hq.
  - rewrite (locked_tokens_run _ _ _ _ Hnow Hdays Hlo Hhi), Hq. reflexivity.
  - rewrite (num_stakers_run _ _ _ _ Hnow Hdays Hlo Hhi), Hq. reflexivity.
Qed.

(** X17. A kept row whose time does not parse ends the loop.  The
    exception of the first such row is the outcome; rows after it are
    not looked at. *)
Theorem unparseable_time_raises before r after e :
  parses before ->
  truthy (pt_value r) = true ->
  from_rfc3339 (pt_time r) = Raise e ->
  collect_points (before ++ r :: after) [] = Raise e.
Proof.
  intros Hp Ht Hr. rewrite collect_points_app.
  destruct (collect_points_spec before [] Hp) as (filled & -> & _).
  simpl. rewrite Ht, Hr. reflexivity.
Qed.

End MoreHistory.

(** ** The extras on the small network *)

(** X1 on the quiet network: start, then stop. *)
Lemma start_stop_start_witness :
  exists st1 st2,
    @start quiet_demo (quiet_fresh 0 (demo_store Healthy)) = (Ok tt, st1) /\
    stop st1 = (Ok tt, st2) /\
    is_running st1 = true /\ is_running st2 = false /\ _client st2 = None.
Proof.
  pose (s := quiet_fresh 0 (demo_store Healthy)).
  pose (st_n := snd (@_learn_about_nodes quiet_demo
                       (armed NodeTask (_refresh_rate s) (entered s)))).
  pose (st_c := snd (@_learn_about_contracts quiet_demo
                       (armed ContractTask (_refresh_rate s - 2) st_n))).
  assert (Hn : @_learn_about_nodes quiet_demo
                 (armed NodeTask (_refresh_rate s) (entered s)) = (Ok tt, st_n))
    by (vm_compute; reflexivity).
  assert (Hc : @_learn_about_contracts quiet_demo
                 (armed ContractTask (_refresh_rate s - 2) st_n) = (Ok tt, st_c))
    by (vm_compute; reflexivity).
  destruct (@start_stop_start quiet_demo s st_n st_c eq_refl eq_refl
              ltac:(vm_compute; discriminate) Hn Hc)
    as (st1 & st2 & H1 & H2 & R1 & R2 & Hcl & _).
  exists st1, st2. repeat split; assumption.
Defined.

(** X2 on the small network: a crawler started when the staker without
    a worker is known. *)
Lemma start_hides_failure_witness :
  exists st',
    @start demo (demo_fresh 500 (demo_store Healthy) 60) = (Ok tt, st') /\
    start_calls (events st') = 2%nat /\
    _contract_learning_task st' = started 58 /\
    errback (_node_learning_task st') = false.
Proof.
  pose (s := demo_fresh 500 (demo_store Healthy) 60).
  pose (st_n := snd (@_learn_about_nodes demo
                       (armed NodeTask (_refresh_rate s) (entered s)))).
  pose (st_c := snd (@_learn_about_contracts demo
                       (armed ContractTask (_refresh_rate s - 2)
                          (set_task NodeTask (halted (_node_learning_task st_n)) st_n)))).
  assert (Hn : @_learn_about_nodes demo
                 (armed NodeTask (_refresh_rate s) (entered s)) =
               (Raise (CollaboratorError "no worker"), st_n))
    by (vm_compute; reflexivity).
  assert (Hc : @_learn_about_contracts demo
                 (armed ContractTask (_refresh_rate s - 2)
                    (set_task NodeTask (halted (_node_learning_task st_n)) st_n)) =
               (Ok tt, st_c))
    by (vm_compute; reflexivity).
  destruct (@start_hides_first_cycle_failure demo s _ st_n st_c eq_refl eq_refl
              ltac:(vm_compute; discriminate) eq_refl Hn Hc)
    as (st' & H1 & _ & H2 & H3 & H4 & _).
  exists st'. repeat split; assumption.
Defined.

(** X3 on the small network. *)
Lemma half_running_witness :
  @stop demo (demo_contract_down 0) = (Ok tt, demo_contract_down 0) /\
  fst (@start demo (demo_contract_down 0)) =
    Raise (AssertionError "Tried to start an already running LoopingCall.").
Proof.
  destruct (@half_running_start_fails demo (demo_contract_down 0) eq_refl
              ltac:(vm_compute; discriminate)) as (H1 & H2 & _).
  split; assumption.
Defined.

(** X4 on the small network. *)
Lemma node_failure_restart_witness :
  exists st2,
    @LoopingCall_call demo NodeTask (demo_running 500 (demo_store Healthy)) =
      (Raise (AssertionError "Tried to start an already running LoopingCall."), st2) /\
    start_calls (events st2) = 1%nat /\
    errback (_node_learning_task st2) = false.
Proof.
  assert (H : @_learn_about_nodes demo (demo_running 500 (demo_store Healthy)) =
              (Raise (CollaboratorError "no worker"),
               snd (@_learn_about_nodes demo (demo_running 500 (demo_store Healthy)))))
    by (vm_compute; reflexivity).
  destruct (@node_failure_restart_fails demo _ _ _ H eq_refl eq_refl eq_refl
              ltac:(vm_compute; discriminate))
    as (st2 & Hcall & Hstart & Herr & _).
  exists st2. repeat split; assumption.
Defined.

(** X5 on the small network. *)
Lemma failure_without_restart_witness :
  exists st2,
    @LoopingCall_call demo ContractTask (demo_no_restart 1000) = (Ok tt, st2) /\
    running (_contract_learning_task st2) = false /\
    start_calls (events st2) = 0%nat.
Proof.
  assert (H : @task_body demo ContractTask (demo_no_restart 1000) =
              (Raise (CollaboratorError "chain unreachable"), demo_no_restart 1000))
    by (vm_compute; reflexivity).
  destruct (@failure_without_restart demo ContractTask _ _ _ H eq_refl eq_refl)
    as (st2 & Hcall & Hrun & _ & _ & Hstart).
  exists st2. repeat split; assumption.
Defined.

(** X6 on the small network. *)
Lemma init_witness :
  exists st,
    @__init__ demo 0 demo_empty_store 60 true = (Ok tt, st) /\
    is_running st = false /\
    has_database DB_NAME (influx st) = true.
Proof.
  destruct (@init_builds_stopped_crawler demo 0 demo_empty_store 60 true
              ltac:(intros e; discriminate))
    as (st & H & Hrun & _ & _ & _ & _ & _ & Hdb & _).
  exists st. repeat split; assumption.
Defined.

(** X7 on the small network. *)
Lemma init_failure_witness :
  fst (@__init__ demo 0 (demo_store (Unreachable (CollaboratorError "connection refused")))
         60 true) = Raise (CollaboratorError "connection refused").
Proof.
  exact (proj1 (@init_fails_on_unreachable_store demo 0
                  (demo_store (Unreachable (CollaboratorError "connection refused")))
                  60 true _ eq_refl)).
Defined.

(** X10 on the quiet network, with a store that cannot be reached. *)
Lemma empty_network_witness :
  exists st',
    @_learn_about_nodes quiet_demo
      (quiet_fresh 0 (demo_store (Unreachable (CollaboratorError "connection refused"))))
      = (Ok tt, st') /\
    written_batches (events st') = [[]].
Proof.
  eexists. split.
  - exact (@empty_network_cycle quiet_demo
             (quiet_fresh 0 (demo_store (Unreachable (CollaboratorError "connection refused"))))
             1572739200 1 18203 2 3 demo_client eq_refl eq_refl eq_refl
             ltac:(unfold MIN_EPOCH, MAX_EPOCH; lia) eq_refl).
  - reflexivity.
Defined.

(** X18 on the quiet network: a block far in the future. *)
Lemma unformattable_block_time_witness :
  exists msg,
    fst (@_learn_about_nodes quiet_demo (quiet_fresh 100000000000 (demo_store Healthy)))
      = Raise (ValueError msg).
Proof.
  destruct (@unformattable_block_time_aborts_cycle quiet_demo
              (quiet_fresh 100000000000 (demo_store Healthy))
              1301572739200 100000000001 18203 100000000002 [] 100000000003
              eq_refl eq_refl eq_refl
              ltac:(right; unfold MAX_EPOCH; lia)) as (e & H & He).
  destruct (He ltac:(lia)) as (msg & ->).
  exists msg. rewrite H. reflexivity.
Defined.

(** X19 on the fading network: the chain stops answering during the
    first contract cycle. *)
Lemma start_hides_contract_failure_witness :
  exists st',
    @start fading_demo (fading_fresh 0 (demo_store Healthy)) = (Ok tt, st') /\
    is_running st' = false /\
    start_calls (events st') = 1%nat.
Proof.
  pose (s := fading_fresh 0 (demo_store Healthy)).
  pose (st_n := snd (@_learn_about_nodes fading_demo
                       (armed NodeTask (_refresh_rate s) (entered s)))).
  pose (st_c := snd (@_learn_about_contracts fading_demo
                       (armed ContractTask (_refresh_rate s - 2) st_n))).
  assert (Hn : @_learn_about_nodes fading_demo
                 (armed NodeTask (_refresh_rate s) (entered s)) = (Ok tt, st_n))
    by (vm_compute; reflexivity).
  assert (Hc : @_learn_about_contracts fading_demo
                 (armed ContractTask (_refresh_rate s - 2) st_n) =
               (Raise (CollaboratorError "chain unreachable"), st_c))
    by (vm_compute; reflexivity).
  destruct (@start_hides_contract_cycle_failure fading_demo s st_n _ st_c
              eq_refl eq_refl ltac:(vm_compute; discriminate) eq_refl Hn Hc)
    as (st' & H1 & _ & _ & _ & H2 & H3 & _).
  exists st'. repeat split; assumption.
Defined.

(** X12 on the small network. *)
Lemma series_order_witness :
  @collect_points demo (demo_points "SELECT COUNT") [] =
    Ok [(1572566400, PyInt 2); (1572739200, PyInt 3)].
Proof.
  apply (@series_is_kept_rows_in_order demo (demo_points "SELECT COUNT")
           [1572566400; 1572739200]).
  - repeat constructor.
  - apply NoDup_cons. split; [| apply NoDup_singleton].
    intros H. apply list_elem_of_singleton in H. discriminate H.
Defined.

(** X14 on the small network. *)
Lemma last_row_witness :
  exists series,
    @collect_points demo demo_rows_same_day [] = Ok series /\
    od_get 1572566400 series = Some (PyFloat 175).
Proof.
  eexists. split; [vm_compute; reflexivity |].
  apply (@last_row_of_a_day_wins demo
           [ {| pt_time := "2019-11-01T00:00:00Z"; pt_value := PyFloat 150 |};
             {| pt_time := "2019-11-02T00:00:00Z"; pt_value := PyFloat 40 |} ]
           {| pt_time := "2019-11-01T00:00:00Z"; pt_value := PyFloat 175 |}
           [] 1572566400);
    [reflexivity | reflexivity | constructor | vm_compute; reflexivity].
Defined.

(** X15 on the small network. *)
Lemma nonpositive_days_witness :
  events (snd (@get_historical_locked_tokens_over_range demo 0
                 (demo_fresh 0 (demo_store Healthy) 60))) =
    [Call_query (@locked_tokens_query demo 737367 737367)].
Proof.
  destruct (@nonpositive_days_query_an_empty_range demo
              (demo_fresh 0 (demo_store Healthy) 60) 0 737366 0 eq_refl
              ltac:(lia) ltac:(vm_compute; discriminate)
              ltac:(vm_compute; discriminate)) as (_ & H & _).
  exact H.
Defined.

(** X16 on the small network. *)
Lemma query_failure_witness :
  fst (@get_historical_num_stakers_over_range quiet_demo 7
         (quiet_fresh 0 (demo_store (Unreachable (CollaboratorError "connection refused")))))
    = Raise (CollaboratorError "connection refused").
Proof.
  destruct (@query_failure_propagates quiet_demo
              (quiet_fresh 0 (demo_store (Unreachable (CollaboratorError "connection refused"))))
              7 737366 0 (CollaboratorError "connection refused") eq_refl
              ltac:(lia) ltac:(vm_compute; discriminate)
              ltac:(vm_compute; discriminate)) as (_ & H).
  rewrite (H eq_refl). reflexivity.
Defined.

(** X17 on the small network. *)
Lemma unparseable_time_witness :
  @collect_points demo demo_rows_bad_time [] =
    Raise (ValueError "not an RFC 3339 time").
Proof.
  apply (@unparseable_time_raises demo
           [ {| pt_time := "2019-11-01T00:00:00Z"; pt_value := PyFloat 150 |} ]
           {| pt_time := "yesterday"; pt_value := PyFloat 40 |}
           [ {| pt_time := "2019-11-03T00:00:00Z"; pt_value := PyFloat 175 |} ]).
  - repeat constructor. intros _. eexists. reflexivity.
  - reflexivity.
  - reflexivity.
Defined.
